(** * NewsBot: the session conversation engine and its recurring jobs

    A shallow embedding of [finance_agent/news_bot.py] (class [NewsBot], the
    multi-schedule variant that the file lists first) and of the parts of
    the third-party [schedule] package the class drives.

    Layout: Python strings and built-ins, exceptions, the collaborators
    (news store, language model, prompt template, clock), the scheduler,
    the bot's methods, and then the properties. *)

From Stdlib Require Import ZArith NArith String Ascii DecimalString Lia.
From stdpp Require Import base option list sorting gmap.

Local Open Scope Z_scope.

(** ** Python strings *)

(** A Python [str] is a sequence of Unicode code points. *)
Abbreviation codepoint := N (only parsing).
Abbreviation pystr := (list N).

(** Source literals are written as UTF-8 text and decoded to code points. *)
Fixpoint utf8_go (bs : list N) (need : nat) (acc : N) : pystr :=
  match bs with
  | [] => []
  | b :: bs' =>
      match need with
      | O =>
          if (b <? 128)%N then b :: utf8_go bs' 0 0%N
          else if (b <? 224)%N then utf8_go bs' 1 (b - 192)%N
          else if (b <? 240)%N then utf8_go bs' 2 (b - 224)%N
          else utf8_go bs' 3 (b - 240)%N
      | S n =>
          let acc' := (acc * 64 + (b - 128))%N in
          match n with
          | O => acc' :: utf8_go bs' 0 0%N
          | S _ => utf8_go bs' n acc'
          end
      end
  end.

Definition utf8 (s : string) : pystr :=
  utf8_go (map N_of_ascii (list_ascii_of_string s)) 0 0%N.
Arguments utf8 s%_string : simpl never.

(** ["\n"] *)
Definition NL : pystr := [10%N].

(** [needle in hay] on strings: [needle] occurs as a contiguous run. *)
Fixpoint str_startswith (p s : pystr) : bool :=
  match p, s with
  | [], _ => true
  | _ :: _, [] => false
  | a :: p', b :: s' => (a =? b)%N && str_startswith p' s'
  end.

Fixpoint str_in (needle hay : pystr) : bool :=
  str_startswith needle hay ||
  match hay with
  | [] => false
  | _ :: hay' => str_in needle hay'
  end.

(** [x in [l0, l1, ...]] on a list of strings. *)
Definition list_in (x : pystr) (l : list pystr) : bool :=
  bool_decide (x ∈ l).

(** The built-ins the bot calls whose results depend on the interpreter's
    Unicode tables and integer grammar: [str.isdigit], [str.strip],
    [str.lower] and [int(str)] ([None] stands for [ValueError]). *)
Record Builtins := {
  str_isdigit : codepoint -> bool;
  str_strip : pystr -> pystr;
  str_lower : pystr -> pystr;
  int_of_str : pystr -> option Z;
}.

(** [''.join(filter(str.isdigit, s))] *)
Definition digits_of (py : Builtins) (s : pystr) : pystr :=
  List.filter (str_isdigit py) s.

(** *** The built-ins on ASCII text

    An instance to evaluate the bot on concrete inputs: the four built-ins
    as they act on strings whose characters beyond ASCII are neither
    digits, whitespace nor cased (Hangul, for one), and on integer
    literals shorter than the interpreter's conversion limit. *)

Definition ascii_isdigit (c : codepoint) : bool :=
  (48 <=? c)%N && (c <=? 57)%N.

(** [str.isspace] below U+0080: tab to carriage return, the four
    separators U+001C to U+001F and the space. *)
Definition ascii_isspace (c : codepoint) : bool :=
  (c =? 32)%N || ((9 <=? c)%N && (c <=? 13)%N)
  || ((28 <=? c)%N && (c <=? 31)%N).

Fixpoint lstrip (s : pystr) : pystr :=
  match s with
  | c :: s' => if ascii_isspace c then lstrip s' else s
  | [] => []
  end.

Definition ascii_strip (s : pystr) : pystr :=
  rev (lstrip (rev (lstrip s))).

Definition ascii_lower (s : pystr) : pystr :=
  map (fun c => if (65 <=? c)%N && (c <=? 90)%N then (c + 32)%N else c) s.

(** The value of a run of ASCII digits ([None] when another character
    stands in it). *)
Fixpoint decimal_value (acc : Z) (s : pystr) : option Z :=
  match s with
  | [] => Some acc
  | c :: s' =>
      if ascii_isdigit c
      then decimal_value (10 * acc + Z.of_N (c - 48)) s'
      else None
  end.

(** [int(s)] in base 10: whitespace on both sides (the separators
    U+001C to U+001F are none for it), an optional sign, then digits,
    where single underscores may stand between two digits. *)
Definition int_isspace (c : codepoint) : bool :=
  (c =? 32)%N || ((9 <=? c)%N && (c <=? 13)%N).

Fixpoint int_lstrip (s : pystr) : pystr :=
  match s with
  | c :: s' => if int_isspace c then int_lstrip s' else s
  | [] => []
  end.

Definition int_strip (s : pystr) : pystr :=
  rev (int_lstrip (rev (int_lstrip s))).

Fixpoint literal_value (acc : Z) (s : pystr) : option Z :=
  match s with
  | [] => Some acc
  | c :: s' =>
      if ascii_isdigit c
      then literal_value (10 * acc + Z.of_N (c - 48)) s'
      else if (c =? 95)%N
      then match s' with
           | d :: _ => if ascii_isdigit d then literal_value acc s' else None
           | [] => None
           end
      else None
  end.

Definition unsigned_value (ds : pystr) : option Z :=
  match ds with
  | d :: _ => if ascii_isdigit d then literal_value 0 ds else None
  | [] => None
  end.

Definition ascii_int (s : pystr) : option Z :=
  match int_strip s with
  | 45%N :: ds => Z.opp <$> unsigned_value ds
  | 43%N :: ds => unsigned_value ds
  | ds => unsigned_value ds
  end.

Definition ascii_builtins : Builtins := {|
  str_isdigit := ascii_isdigit;
  str_strip := ascii_strip;
  str_lower := ascii_lower;
  int_of_str := ascii_int;
|}.

(** ["sep".join(parts)] *)
Fixpoint str_join (sep : pystr) (parts : list pystr) : pystr :=
  match parts with
  | [] => []
  | [p] => p
  | p :: rest => p ++ sep ++ str_join sep rest
  end.

(** [str(n)] for a non-negative integer. *)
Definition str_of_nat (n : nat) : pystr :=
  utf8 (NilEmpty.string_of_uint (Nat.to_uint n)).

(** [enumerate(l)] *)
Definition enumerate {A} (l : list A) : list (nat * A) :=
  zip (seq 0 (length l)) l.

(** ** Exceptions *)

(** What can escape a method: a [KeyError] from a task field that is not
    set, the scheduler's [ScheduleValueError], or whatever a collaborator
    raises (identified by an opaque code). An [int()] that fails is the
    [None] of [int_of_str]; its [ValueError] never leaves the [try]. *)
Inductive exn :=
| KeyError (key : pystr)
| ScheduleValueError
| CollaboratorError (code : N).

Inductive result (A : Type) :=
| Ok (a : A)
| Raise (e : exn).
Arguments Ok {A} a.
Arguments Raise {A} e.

Definition rbind {A B} (r : result A) (k : A -> result B) : result B :=
  match r with
  | Ok a => k a
  | Raise e => Raise e
  end.

Notation "'try!' x <- r ; k" := (rbind r (fun x => k))
  (at level 10, x pattern, r at level 100, k at level 200).

(** ** Collaborators *)

(** An article record as the news store returns it: a dict whose keys may
    be missing. *)
Record Article := {
  a_title : option pystr;
  a_link : option pystr;
  a_content : option pystr;
}.

(** The news store, the language model, the prompt template of
    [finance_agent.prompts] and the clock. [search_news company date] is
    [news_db.search_news(keywords=[company], date=date, limit=1)]. *)
Record Collaborators := {
  now : Z;
  today_str : pystr;
  search_news : pystr -> pystr -> result (list Article);
  fetch_news_content : pystr -> result pystr;
  news_summary_prompt : pystr -> pystr -> pystr -> pystr;
  llm_run : pystr -> result pystr;
}.

Definition NOT_FOUND : pystr := utf8 "관련 뉴스를 찾지 못했습니다.".

Definition CONTENT_UNAVAILABLE (title : pystr) : pystr :=
  utf8 "'" ++ title ++ utf8 "' 뉴스의 본문 내용을 가져올 수 없어 요약에 실패했습니다.".

(** [latest_news.get("content") or self.news_db._fetch_news_content(url)]:
    the fallback runs only when the embedded content is missing or empty. *)
Definition content_or_fetch (env : Collaborators) (latest_news : Article)
    (url : pystr) : result pystr :=
  match a_content latest_news with
  | Some (c :: cs) => Ok (c :: cs)
  | _ => fetch_news_content env url
  end.

Definition _fetch_and_summarize_latest_news (env : Collaborators)
    (company_name : pystr) : result (pystr * bool) :=
  try! news_list <- search_news env company_name (today_str env);
  match news_list with
  | [] => Ok (NOT_FOUND, false)
  | latest_news :: _ =>
      let title := default (utf8 "제목 없음") (a_title latest_news) in
      let url := default [] (a_link latest_news) in
      try! content <- content_or_fetch env latest_news url;
      match content with
      | [] => Ok (CONTENT_UNAVAILABLE title, false)
      | _ :: _ =>
          let prompt_text := news_summary_prompt env title content url in
          try! summary <- llm_run env prompt_text;
          Ok (summary ++ NL ++ utf8 "출처: " ++ url, true)
      end
  end.

(** ** The scheduler ([schedule.Scheduler]) *)

Inductive JobKind := Daily | Weekly.

Global Instance JobKind_eq_dec : EqDecision JobKind.
Proof. solve_decision. Defined.

(** A job holds its handler ([_send_daily_summary] for [Daily],
    [_send_weekly_report] for [Weekly]) with the keyword arguments
    [session_id] and [company_name], its period in days, the optional
    time of day and the next time it is due. *)
Record Job := {
  job_session : pystr;
  job_company : pystr;
  job_kind : JobKind;
  interval : Z;
  at_time : option pystr;
  next_run : Z;
}.

Definition kind_tag (k : JobKind) : pystr :=
  match k with
  | Daily => utf8 "daily"
  | Weekly => utf8 "weekly"
  end.

(** [.tag(session_id, company_name, 'daily' | 'weekly')]: every job of the
    bot carries exactly these three tags. *)
Definition job_tags (j : Job) : list pystr :=
  [job_session j; job_company j; kind_tag (job_kind j)].

(** The two computations of the package that depend on its version and on
    the calendar: whether [Job.at] accepts a time string for a daily job
    (it raises [ScheduleValueError] otherwise) and [_schedule_next_run]. *)
Record ScheduleLib := {
  at_accepts : pystr -> bool;
  schedule_next_run : Z -> option pystr -> Z -> Z;
}.

(** [Scheduler.clear(tag)]: without a tag every job goes, with one the
    jobs that carry it go. *)
Definition clear (tag : option pystr) (jobs : list Job) : list Job :=
  match tag with
  | None => []
  | Some t => List.filter (fun j => negb (bool_decide (t ∈ job_tags j))) jobs
  end.

Definition should_run (t : Z) (j : Job) : bool := next_run j <=? t.

(** [sorted(jobs)]: by [next_run] ([Job.__lt__]) and stable: a job goes
    after the jobs due strictly before it and before every other one, so
    jobs due at the same time keep the order of the list. *)
Fixpoint insert_by_next_run (j : Job) (l : list Job) : list Job :=
  match l with
  | [] => [j]
  | k :: l' =>
      if next_run k <? next_run j then k :: insert_by_next_run j l'
      else j :: l
  end.

Definition sorted_jobs (l : list Job) : list Job :=
  foldr insert_by_next_run [] l.

(** The handlers start a thread each and return [None]; the threads
    started are what a dispatch leaves behind. *)
Inductive Thread :=
| daily_summary_thread (session_id company_name : pystr)
| weekly_report_thread (session_id company_name : pystr).

(** The jobs [run_pending] runs at time [t], in the order it runs them. *)
Definition due_jobs (t : Z) (jobs : list Job) : list Job :=
  sorted_jobs (List.filter (should_run t) jobs).

(** [Job.run] ends with [_schedule_next_run]. *)
Definition reschedule (lib : ScheduleLib) (t : Z) (j : Job) : Job :=
  {| job_session := job_session j; job_company := job_company j;
     job_kind := job_kind j; interval := interval j; at_time := at_time j;
     next_run := schedule_next_run lib (interval j) (at_time j) t |}.

(** *** A reference instance of the package

    Times of day are ["HH:MM"] in ASCII, the clock counts seconds. *)
Definition two_digits (s : pystr) : option Z :=
  match s with
  | [a; b] => decimal_value 0 [a; b]
  | _ => None
  end.

Definition hhmm_seconds (s : pystr) : option Z :=
  match s with
  | [h1; h2; 58%N; m1; m2] =>
      match two_digits [h1; h2], two_digits [m1; m2] with
      | Some h, Some m =>
          if (h <? 24) && (m <? 60) then Some (h * 3600 + m * 60) else None
      | _, _ => None
      end
  | _ => None
  end.

Definition ref_next_run (days : Z) (at_ : option pystr) (t : Z) : Z :=
  match at_ ≫= hhmm_seconds with
  | Some s =>
      let midnight := t - t `mod` 86400 in
      if t <? midnight + s then midnight + s
      else midnight + days * 86400 + s
  | None => t + days * 86400
  end.

Definition ref_schedule : ScheduleLib := {|
  at_accepts := fun s => bool_decide (is_Some (hhmm_seconds s));
  schedule_next_run := ref_next_run;
|}.

(** ** The bot's state *)

(** One entry of a session's ["schedules"] list. *)
Record Schedule := {
  company_name : pystr;
  schedule_time : pystr;
}.

(** The values ["step"] takes. The source's closing [return] for an
    unknown step is never reached: no method stores another value. *)
Inductive Step :=
| awaiting_company_name
| awaiting_schedule_time
| awaiting_cancellation_choice
| awaiting_cancellation_confirmation
| awaiting_report_test_choice.

(** The ["current_task"] dict: ["step"] is always present, the other keys
    appear as the dialogue goes. *)
Record Task := {
  step : Step;
  task_company_name : option pystr;
  task_schedule_time : option pystr;
  company_to_cancel : option pystr;
}.

Record SessionState := {
  schedules : list Schedule;
  current_task : option Task;
}.

(** [self.scheduler.jobs] and [self.conversation_state], with the threads
    started and the lines printed so far. *)
Record NewsBot := {
  scheduler : list Job;
  conversation_state : gmap pystr SessionState;
  threads : list Thread;
  console : list pystr;
}.

Definition new_task (s : Step) : Task :=
  {| step := s; task_company_name := None; task_schedule_time := None;
     company_to_cancel := None |}.

Definition set_step (s : Step) (t : Task) : Task :=
  {| step := s; task_company_name := task_company_name t;
     task_schedule_time := task_schedule_time t;
     company_to_cancel := company_to_cancel t |}.

Definition set_task_company_name (c : pystr) (t : Task) : Task :=
  {| step := step t; task_company_name := Some c;
     task_schedule_time := task_schedule_time t;
     company_to_cancel := company_to_cancel t |}.

Definition set_task_schedule_time (s : pystr) (t : Task) : Task :=
  {| step := step t; task_company_name := task_company_name t;
     task_schedule_time := Some s;
     company_to_cancel := company_to_cancel t |}.

Definition set_company_to_cancel (c : pystr) (t : Task) : Task :=
  {| step := step t; task_company_name := task_company_name t;
     task_schedule_time := task_schedule_time t;
     company_to_cancel := Some c |}.

Definition set_current_task (t : option Task) (ss : SessionState) : SessionState :=
  {| schedules := schedules ss; current_task := t |}.

Definition set_schedules (l : list Schedule) (ss : SessionState) : SessionState :=
  {| schedules := l; current_task := current_task ss |}.

(** Writing through [session_state], the dict held by the store. *)
Definition put_session (session_id : pystr) (ss : SessionState) (bot : NewsBot)
    : NewsBot :=
  {| scheduler := scheduler bot;
     conversation_state := <[session_id := ss]> (conversation_state bot);
     threads := threads bot; console := console bot |}.

Definition set_scheduler (jobs : list Job) (bot : NewsBot) : NewsBot :=
  {| scheduler := jobs; conversation_state := conversation_state bot;
     threads := threads bot; console := console bot |}.

Definition NewsBot_init : NewsBot :=
  {| scheduler := []; conversation_state := ∅; threads := []; console := [] |}.

Definition fresh_session : SessionState :=
  {| schedules := []; current_task := None |}.

(** ** The bot's replies *)

Definition ASK_COMPANY : pystr :=
  utf8 "알겠습니다. 어느 회사의 뉴스를 스케줄링할까요? 회사명을 입력해주세요.".
Definition NO_SCHEDULES : pystr := utf8 "현재 등록된 스케줄이 없습니다.".
Definition REGISTER_FIRST : pystr :=
  utf8 "먼저 뉴스 스케줄링을 등록해야 테스트할 수 있습니다.".
Definition NO_ACTIVE_TASK : pystr :=
  utf8 "진행 중인 작업이 없습니다. '뉴스 스케줄링' 등으로 시작해주세요.".
Definition SETUP_CANCELLED : pystr := utf8 "알겠습니다. 스케줄링을 취소합니다.".
Definition TIME_FORMAT_ERROR : pystr :=
  utf8 "시간 형식이 올바르지 않습니다. '09:00', '14:30' 와 같이 입력해주세요.".
Definition INVALID_NUMBER : pystr := utf8 "잘못된 번호입니다. 다시 입력해주세요.".
Definition ENTER_A_NUMBER : pystr := utf8 "숫자로 입력해주세요.".
Definition KEEPING_SCHEDULE : pystr := utf8 "알겠습니다. 스케줄을 유지합니다.".

Definition CONFIRM_CANCEL (company : pystr) : pystr :=
  utf8 "알겠습니다. '" ++ company
  ++ utf8 "' 뉴스의 정기 알림을 취소하시겠습니까? ('네' 또는 '아니오')".

Definition REPORT_TRIGGERED (company : pystr) : pystr :=
  utf8 "'" ++ company
  ++ utf8 "'에 대한 주간 보고서 생성을 수동으로 실행했습니다. (콘솔 확인)".

Definition ASK_TIME (company summary : pystr) : pystr :=
  utf8 "📰 " ++ company ++ utf8 " 최신 뉴스 요약:" ++ NL ++ summary ++ NL ++ NL
  ++ utf8 "매일 몇 시에 '" ++ company
  ++ utf8 "'의 최신 뉴스를 요약해드릴까요? (예: '09:00', '14:30', 원하지 않으면 '아니' 또는 '취소')".

Definition SCHEDULED (time company : pystr) : pystr :=
  utf8 "알겠습니다. 매일 " ++ time ++ utf8 "에 " ++ company
  ++ utf8 " 뉴스를 보내드릴게요.".

(** [f"'{company_to_cancel}' ..."], where the value may be [None]. *)
Definition CANCELLED (company : option pystr) : pystr :=
  utf8 "'" ++ default (utf8 "None") company
  ++ utf8 "' 뉴스의 정기 알림이 취소되었습니다.".

Definition cancel_keywords : list pystr :=
  [utf8 "아니"; utf8 "취소"; utf8 "필요없어"].

Definition affirmatives : list pystr :=
  [utf8 "네"; utf8 "예"; utf8 "응"; utf8 "맞아"].

(** ** The bot's methods *)

Section NewsBot.
Context (py : Builtins) (lib : ScheduleLib) (env : Collaborators).

(** Looks the session up and creates its entry when it is missing. *)
Definition _get_session_state (bot : NewsBot) (session_id : pystr)
    : NewsBot * SessionState :=
  match conversation_state bot !! session_id with
  | Some session_state => (bot, session_state)
  | None => (put_session session_id fresh_session bot, fresh_session)
  end.

Definition start_conversation (bot : NewsBot) (session_id : pystr)
    : NewsBot * pystr :=
  let '(bot, session_state) := _get_session_state bot session_id in
  (put_session session_id
     (set_current_task (Some (new_task awaiting_company_name)) session_state)
     bot,
   ASK_COMPANY).

Definition cancellation_options (l : list Schedule) : pystr :=
  str_join NL
    (map (fun '(i, s) =>
            str_of_nat (i + 1) ++ utf8 ". " ++ company_name s
            ++ utf8 " (" ++ schedule_time s ++ utf8 ")")
         (enumerate l)).

Definition start_cancellation (bot : NewsBot) (session_id : pystr)
    : NewsBot * pystr :=
  let '(bot, session_state) := _get_session_state bot session_id in
  match schedules session_state with
  | [] =>
      (put_session session_id (set_current_task None session_state) bot,
       NO_SCHEDULES)
  | [s] =>
      let company_to_cancel := company_name s in
      (put_session session_id
         (set_current_task
            (Some (set_company_to_cancel company_to_cancel
                     (new_task awaiting_cancellation_confirmation)))
            session_state)
         bot,
       CONFIRM_CANCEL company_to_cancel)
  | l =>
      (put_session session_id
         (set_current_task (Some (new_task awaiting_cancellation_choice))
            session_state)
         bot,
       utf8 "어떤 스케줄을 취소하시겠습니까? 번호를 입력해주세요." ++ NL
       ++ cancellation_options l)
  end.

Definition show_schedules (bot : NewsBot) (session_id : pystr)
    : NewsBot * pystr :=
  let '(bot, session_state) := _get_session_state bot session_id in
  match schedules session_state with
  | [] => (bot, NO_SCHEDULES)
  | l =>
      (bot,
       str_join NL
         (utf8 "현재 등록된 알림 목록입니다:"
          :: concat
               (map (fun sched =>
                       [utf8 " - 🗓️ 일일 뉴스: '" ++ company_name sched
                        ++ utf8 "' (매일 " ++ schedule_time sched ++ utf8 ")";
                        utf8 " - 📊 주간 보고서: '" ++ company_name sched
                        ++ utf8 "' (매주 1회)"])
                    l)))
  end.

(** Starts the thread that builds and prints the weekly report. *)
Definition _send_weekly_report (bot : NewsBot) (session_id company : pystr)
    : NewsBot :=
  {| scheduler := scheduler bot; conversation_state := conversation_state bot;
     threads := threads bot ++ [weekly_report_thread session_id company];
     console := console bot |}.

Definition _send_daily_summary (bot : NewsBot) (session_id company : pystr)
    : NewsBot :=
  {| scheduler := scheduler bot; conversation_state := conversation_state bot;
     threads := threads bot ++ [daily_summary_thread session_id company];
     console := console bot |}.

Definition report_options (l : list Schedule) : pystr :=
  str_join NL
    (map (fun '(i, s) => str_of_nat (i + 1) ++ utf8 ". " ++ company_name s)
         (enumerate l)).

Definition trigger_weekly_report (bot : NewsBot) (session_id : pystr)
    : NewsBot * pystr :=
  let '(bot, session_state) := _get_session_state bot session_id in
  match schedules session_state with
  | [] => (bot, REGISTER_FIRST)
  | [s] =>
      (_send_weekly_report bot session_id (company_name s),
       REPORT_TRIGGERED (company_name s))
  | l =>
      (put_session session_id
         (set_current_task (Some (new_task awaiting_report_test_choice))
            session_state)
         bot,
       utf8 "어떤 회사의 주간 보고서를 테스트하시겠습니까? 번호를 입력해주세요."
       ++ NL ++ report_options l)
  end.

Definition daily_job (session_id company time : pystr) : Job :=
  {| job_session := session_id; job_company := company; job_kind := Daily;
     interval := 1; at_time := Some time;
     next_run := schedule_next_run lib 1 (Some time) (now env) |}.

Definition weekly_job (session_id company : pystr) : Job :=
  {| job_session := session_id; job_company := company; job_kind := Weekly;
     interval := 7; at_time := None;
     next_run := schedule_next_run lib 7 None (now env) |}.

(** Registers the daily job, then the weekly job, then prints a line.
    [.at(schedule_time)] raises before anything is registered when the
    package rejects the time. *)
Definition _schedule_jobs (bot : NewsBot)
    (session_id company schedule_time : pystr) : NewsBot * result unit :=
  if at_accepts lib schedule_time then
    ({| scheduler :=
          scheduler bot
          ++ [daily_job session_id company schedule_time;
              weekly_job session_id company];
        conversation_state := conversation_state bot;
        threads := threads bot;
        console :=
          console bot
          ++ [utf8 "[" ++ session_id ++ utf8 "-" ++ company
              ++ utf8 "] 다음 작업 스케줄링됨: Daily @ " ++ schedule_time] |},
     Ok tt)
  else (bot, Raise ScheduleValueError).

(** The digits of the input, read as a time of day; [None] is the
    format error. *)
Definition parse_schedule_time (user_input : pystr) : option pystr :=
  let schedule_time_str := digits_of py user_input in
  if decide (length schedule_time_str = 2%nat)
  then Some (schedule_time_str ++ utf8 ":00")
  else if decide (length schedule_time_str = 4%nat)
  then Some (take 2 schedule_time_str ++ utf8 ":" ++ drop 2 schedule_time_str)
  else None.

(** [schedules[choice_idx]] under the guard [0 <= choice_idx < len(schedules)]. *)
Definition choose (l : list Schedule) (choice_idx : Z) : option Schedule :=
  if (0 <=? choice_idx) && (choice_idx <? Z.of_nat (length l))
  then l !! Z.to_nat choice_idx
  else None.

Definition handle_message (bot : NewsBot) (session_id user_input : pystr)
    : NewsBot * result pystr :=
  let '(bot, session_state) := _get_session_state bot session_id in
  match current_task session_state with
  | None => (bot, Ok NO_ACTIVE_TASK)
  | Some task =>
      match step task with
      | awaiting_company_name =>
          let company := str_strip py user_input in
          let task := set_task_company_name company task in
          let session_state := set_current_task (Some task) session_state in
          let bot := put_session session_id session_state bot in
          match _fetch_and_summarize_latest_news env company with
          | Raise e => (bot, Raise e)
          | Ok (summary, false) =>
              (put_session session_id (set_current_task None session_state) bot,
               Ok summary)
          | Ok (summary, true) =>
              (put_session session_id
                 (set_current_task
                    (Some (set_step awaiting_schedule_time task))
                    session_state)
                 bot,
               Ok (ASK_TIME company summary))
          end
      | awaiting_schedule_time =>
          if existsb (fun keyword => str_in keyword user_input) cancel_keywords
          then
            (put_session session_id (set_current_task None session_state) bot,
             Ok SETUP_CANCELLED)
          else
            match parse_schedule_time user_input with
            | None => (bot, Ok TIME_FORMAT_ERROR)
            | Some schedule_time_str =>
                let task := set_task_schedule_time schedule_time_str task in
                let session_state :=
                  set_current_task (Some task) session_state in
                let bot := put_session session_id session_state bot in
                match task_company_name task with
                | None => (bot, Raise (KeyError (utf8 "company_name")))
                | Some company =>
                    let session_state :=
                      set_schedules
                        (schedules session_state
                         ++ [{| company_name := company;
                                schedule_time := schedule_time_str |}])
                        session_state in
                    let bot := put_session session_id session_state bot in
                    match _schedule_jobs bot session_id company
                            schedule_time_str with
                    | (bot, Raise e) => (bot, Raise e)
                    | (bot, Ok _) =>
                        (put_session session_id
                           (set_current_task None session_state) bot,
                         Ok (SCHEDULED schedule_time_str company))
                    end
                end
            end
      | awaiting_cancellation_choice =>
          match int_of_str py user_input with
          | None => (bot, Ok ENTER_A_NUMBER)
          | Some n =>
              match choose (schedules session_state) (n - 1) with
              | Some s =>
                  let task :=
                    set_company_to_cancel (company_name s)
                      (set_step awaiting_cancellation_confirmation task) in
                  (put_session session_id
                     (set_current_task (Some task) session_state) bot,
                   Ok (CONFIRM_CANCEL (company_name s)))
              | None => (bot, Ok INVALID_NUMBER)
              end
          end
      | awaiting_cancellation_confirmation =>
          if list_in (str_lower py user_input) affirmatives then
            let target := company_to_cancel task in
            let bot := set_scheduler (clear target (scheduler bot)) bot in
            let kept :=
              List.filter
                (fun s => negb (bool_decide (Some (company_name s) = target)))
                (schedules session_state) in
            (put_session session_id
               (set_current_task None (set_schedules kept session_state)) bot,
             Ok (CANCELLED target))
          else
            (put_session session_id (set_current_task None session_state) bot,
             Ok KEEPING_SCHEDULE)
      | awaiting_report_test_choice =>
          match int_of_str py user_input with
          | None => (bot, Ok ENTER_A_NUMBER)
          | Some n =>
              match choose (schedules session_state) (n - 1) with
              | Some s =>
                  let bot :=
                    _send_weekly_report bot session_id (company_name s) in
                  (put_session session_id
                     (set_current_task None session_state) bot,
                   Ok (REPORT_TRIGGERED (company_name s)))
              | None => (bot, Ok INVALID_NUMBER)
              end
          end
      end
  end.

(** [job.job_func()] *)
Definition run_job (bot : NewsBot) (j : Job) : NewsBot :=
  match job_kind j with
  | Daily => _send_daily_summary bot (job_session j) (job_company j)
  | Weekly => _send_weekly_report bot (job_session j) (job_company j)
  end.

(** [self.scheduler.run_pending()] at time [t], one turn of
    [run_scheduler]'s loop: the due jobs run in order of [next_run]; no
    handler returns [CancelJob], so each job stays and is rescheduled. *)
Definition run_pending (t : Z) (bot : NewsBot) : NewsBot :=
  let bot' := foldl run_job bot (due_jobs t (scheduler bot)) in
  set_scheduler
    (map (fun j => if should_run t j then reschedule lib t j else j)
         (scheduler bot))
    bot'.

End NewsBot.

(** ** Scenario helpers *)

(** The session's state as the methods see it: a missing entry reads as a
    fresh one. *)
Definition session_of (bot : NewsBot) (session_id : pystr) : SessionState :=
  default fresh_session (conversation_state bot !! session_id).

(** A job (a thread) belongs to the pair when its handler was bound with
    that session id and that company name. *)
Definition job_for (session_id subject : pystr) (j : Job) : Prop :=
  job_session j = session_id ∧ job_company j = subject.

Definition thread_for (session_id subject : pystr) (th : Thread) : Prop :=
  match th with
  | daily_summary_thread s c | weekly_report_thread s c =>
      s = session_id ∧ c = subject
  end.

(** The jobs of one kind that carry both tags of the pair. *)
Definition jobs_tagged (session_id subject : pystr) (k : JobKind)
    (jobs : list Job) : list Job :=
  List.filter
    (fun j => bool_decide (session_id ∈ job_tags j ∧ subject ∈ job_tags j
                           ∧ job_kind j = k))
    jobs.

(** No job in the registry was bound to the pair. *)
Definition no_job_for (session_id subject : pystr) (bot : NewsBot) : Prop :=
  ∀ j, j ∈ scheduler bot → ¬ job_for session_id subject j.

(** What touches the registry: a registration, a clear, a scheduler tick. *)
Inductive RegistryOp :=
| op_schedule (env : Collaborators) (session_id company time : pystr)
| op_clear (tag : option pystr)
| op_run_pending (t : Z).

Definition run_op (lib : ScheduleLib) (bot : NewsBot) (op : RegistryOp)
    : NewsBot :=
  match op with
  | op_schedule env s c t => (_schedule_jobs lib env bot s c t).1
  | op_clear tag => set_scheduler (clear tag (scheduler bot)) bot
  | op_run_pending t => run_pending lib t bot
  end.

Definition run_ops (lib : ScheduleLib) (ops : list RegistryOp) (bot : NewsBot)
    : NewsBot :=
  foldl (run_op lib) bot ops.

Definition registers (session_id subject : pystr) (op : RegistryOp) : Prop :=
  match op with
  | op_schedule _ s c _ => s = session_id ∧ c = subject
  | _ => False
  end.

(** A news store with an article about every company, a model that
    answers ["summary"], and a clock at 1000 seconds. *)
Definition article_about (company : pystr) : Article :=
  {| a_title := Some (company ++ utf8 " up");
     a_link := Some (utf8 "http://n/1");
     a_content := Some (utf8 "Shares rose.") |}.

Definition news_env : Collaborators := {|
  now := 1000;
  today_str := utf8 "2025-01-01";
  search_news := fun company _ => Ok [article_about company];
  fetch_news_content := fun _ => Ok [];
  news_summary_prompt := fun title content url => title ++ content ++ url;
  llm_run := fun _ => Ok (utf8 "summary");
|}.

(** The same, with a news store that is down. *)
Definition store_down_env : Collaborators := {|
  now := 1000;
  today_str := utf8 "2025-01-01";
  search_news := fun _ _ => Raise (CollaboratorError 1);
  fetch_news_content := fun _ => Ok [];
  news_summary_prompt := fun title content url => title ++ content ++ url;
  llm_run := fun _ => Ok (utf8 "summary");
|}.

(** The whole scheduling dialogue: start, company name, time. *)
Definition register (bot : NewsBot) (session_id company time : pystr) : NewsBot :=
  let bot := (start_conversation bot session_id).1 in
  let bot := (handle_message ascii_builtins ref_schedule news_env bot
                session_id company).1 in
  (handle_message ascii_builtins ref_schedule news_env bot session_id time).1.

(** The whole cancellation dialogue for a session with one schedule. *)
Definition cancel_only_schedule (bot : NewsBot) (session_id : pystr) : NewsBot :=
  let bot := (start_cancellation bot session_id).1 in
  (handle_message ascii_builtins ref_schedule news_env bot session_id
     (utf8 "네")).1.

(** A session that was asked for a time. *)
Definition asked_for_time : NewsBot :=
  (handle_message ascii_builtins ref_schedule news_env
     (start_conversation NewsBot_init (utf8 "s1")).1 (utf8 "s1") (utf8 "Acme")).1.

(** Session s1 with the schedules A, B and C, then asked which to cancel. *)
Definition three_schedules : NewsBot :=
  register
    (register (register NewsBot_init (utf8 "s1") (utf8 "A") (utf8 "0900"))
       (utf8 "s1") (utf8 "B") (utf8 "1000"))
    (utf8 "s1") (utf8 "C") (utf8 "1100").

Definition choosing : NewsBot :=
  (start_cancellation three_schedules (utf8 "s1")).1.

(** Sessions s1 and s2 both follow Acme; then s1 is asked to confirm. *)
Definition shared_subject : NewsBot :=
  register (register NewsBot_init (utf8 "s1") (utf8 "Acme") (utf8 "0900"))
    (utf8 "s2") (utf8 "Acme") (utf8 "1030").

Definition confirming : NewsBot :=
  (start_cancellation shared_subject (utf8 "s1")).1.

(** After s2 cancelled Acme, s3 registers Acme and s1 is asked to confirm
    the cancellation of its own Acme schedule. *)
Definition newcomer : NewsBot :=
  register (cancel_only_schedule shared_subject (utf8 "s2"))
    (utf8 "s3") (utf8 "Acme") (utf8 "1200").

Definition newcomer_confirming : NewsBot :=
  (start_cancellation newcomer (utf8 "s1")).1.

(** Session s1 follows Acme and has started a new scheduling dialogue. *)
Definition one_schedule : NewsBot :=
  register NewsBot_init (utf8 "s1") (utf8 "Acme") (utf8 "0900").

Definition mid_dialogue : NewsBot :=
  (start_conversation one_schedule (utf8 "s1")).1.

(** Session s1 goes through the scheduling dialogue for Acme twice. *)
Definition registered_twice : NewsBot :=
  register one_schedule (utf8 "s1") (utf8 "Acme") (utf8 "1030").

(** A call the summarizer makes for [company] raises [e]: the search; or,
    for an article without content of its own, the content fetch; or, with
    content at hand, the language model. *)
Inductive collaborator_raises (env : Collaborators) (company : pystr) (e : exn)
    : Prop :=
| search_raises :
    search_news env company (today_str env) = Raise e →
    collaborator_raises env company e
| fetch_raises (latest : Article) (rest : list Article) :
    search_news env company (today_str env) = Ok (latest :: rest) →
    a_content latest = None ∨ a_content latest = Some [] →
    fetch_news_content env (default [] (a_link latest)) = Raise e →
    collaborator_raises env company e
| llm_raises (latest : Article) (rest : list Article) (content : pystr) :
    search_news env company (today_str env) = Ok (latest :: rest) →
    content_or_fetch env latest (default [] (a_link latest)) = Ok content →
    content ≠ [] →
    llm_run env
      (news_summary_prompt env (default (utf8 "제목 없음") (a_title latest))
         content (default [] (a_link latest)))
    = Raise e →
    collaborator_raises env company e.

(** The thread a job's handler starts. *)
Definition thread_of (j : Job) : Thread :=
  match job_kind j with
  | Daily => daily_summary_thread (job_session j) (job_company j)
  | Weekly => weekly_report_thread (job_session j) (job_company j)
  end.

(** ** The report threads *)

(** What a thread writes to standard output: [print(text)] adds a newline,
    [print(text, end="")] does not. *)
Definition print (text : pystr) (out : pystr) : pystr := out ++ text ++ NL.

Definition print_no_end (text : pystr) (out : pystr) : pystr := out ++ text.

Definition DAILY_HEADER (company : pystr) : pystr :=
  NL ++ NL ++ utf8 "🤖 [자동 알림] " ++ company
  ++ utf8 "의 오늘의 뉴스 요약입니다.".

Definition NO_NEW_NEWS : pystr :=
  utf8 "현재 시간 기준으로 새로운 뉴스가 없습니다.".

Definition USER_PROMPT : pystr := NL ++ utf8 "🧑: ".

Definition WEEKLY_HEADER (company : pystr) : pystr :=
  NL ++ NL ++ utf8 "- - - - -" ++ NL ++ utf8 "🤖 [주간 보고서] 지난 7일간 "
  ++ company ++ utf8 "의 뉴스 동향입니다.".

Definition NOTHING_THIS_WEEK : pystr := utf8 "지난 7일간 요약할 뉴스가 없습니다.".

Definition WEEKLY_FOOTER : pystr :=
  NL ++ utf8 "- - - - -" ++ NL ++ NL ++ utf8 "🧑: ".

(** The body of the daily thread: the text written and how it ends. *)
Definition _generate_and_print_daily_summary (env : Collaborators)
    (session_id company_name : pystr) : pystr * result unit :=
  let out := print (DAILY_HEADER company_name) [] in
  match _fetch_and_summarize_latest_news env company_name with
  | Raise e => (out, Raise e)
  | Ok (summary, found) =>
      let out := print (if found then summary else NO_NEW_NEWS) out in
      (print_no_end USER_PROMPT out, Ok tt)
  end.

(** What the weekly report needs besides [Collaborators]: the date seven
    days back, the search over a range of dates
    ([search_news(keywords=[company], start_date=.., end_date=.., limit=5)])
    and the prompt template [weekly_report_prompt] (company, articles). *)
Record WeeklySource := {
  start_date : pystr;
  search_news_between : pystr -> pystr -> pystr -> result (list Article);
  weekly_report_prompt : pystr -> pystr -> pystr;
}.

(** One element of [news_for_report]: [news['title']] must be there,
    [news.get('content', '')[:200]] need not. *)
Definition report_entry (news : Article) : result pystr :=
  match a_title news with
  | None => Raise (KeyError (utf8 "title"))
  | Some title =>
      Ok (utf8 "- 제목: " ++ title ++ NL ++ utf8 "- 내용: "
          ++ take 200 (default [] (a_content news)) ++ utf8 "...")
  end.

(** The list comprehension: the first entry that raises ends it. *)
Fixpoint report_entries (news_list : list Article) : result (list pystr) :=
  match news_list with
  | [] => Ok []
  | news :: rest =>
      try! entry <- report_entry news;
      try! entries <- report_entries rest;
      Ok (entry :: entries)
  end.

(** The body of the weekly thread. *)
Definition _generate_and_print_weekly_report (env : Collaborators)
    (src : WeeklySource) (session_id company_name : pystr)
    : pystr * result unit :=
  let out := print (WEEKLY_HEADER company_name) [] in
  match search_news_between src company_name (start_date src) (today_str env) with
  | Raise e => (out, Raise e)
  | Ok [] =>
      (print_no_end WEEKLY_FOOTER (print NOTHING_THIS_WEEK out), Ok tt)
  | Ok news_list =>
      match report_entries news_list with
      | Raise e => (out, Raise e)
      | Ok news_for_report =>
          let prompt :=
            weekly_report_prompt src company_name (str_join NL news_for_report) in
          match llm_run env prompt with
          | Raise e => (out, Raise e)
          | Ok report => (print_no_end WEEKLY_FOOTER (print report out), Ok tt)
          end
      end
  end.

(** Two articles read the same to the weekly report: same title (or both
    without one) and the same first 200 characters of content. *)
Definition same_excerpt (a b : Article) : Prop :=
  a_title a = a_title b
  ∧ take 200 (default [] (a_content a)) = take 200 (default [] (a_content b)).

(** A week with one article whose content is [n] letters long. *)
Definition week_of_length (n : nat) : WeeklySource := {|
  start_date := utf8 "2024-12-25";
  search_news_between := fun company _ _ =>
    Ok [ {| a_title := Some (company ++ utf8 " weekly");
            a_link := None;
            a_content := Some (replicate n 97%N) |} ];
  weekly_report_prompt := fun company articles => company ++ NL ++ articles;
|}.

(** A week whose second article has no title. *)
Definition untitled_week : WeeklySource := {|
  start_date := utf8 "2024-12-25";
  search_news_between := fun company _ _ =>
    Ok [ article_about company;
         {| a_title := None; a_link := None; a_content := Some (utf8 "text") |} ];
  weekly_report_prompt := fun company articles => company ++ NL ++ articles;
|}.

(** ** Runs of the bot *)

(** A call from outside: one of the five public methods, or one turn of
    the scheduler loop. *)
Inductive Call :=
| call_start_conversation (session_id : pystr)
| call_start_cancellation (session_id : pystr)
| call_show_schedules (session_id : pystr)
| call_trigger_weekly_report (session_id : pystr)
| call_handle_message (env : Collaborators) (session_id user_input : pystr)
| call_run_pending (t : Z).

(** The bot after the call; a turn that raises leaves the bot as it was
    when the exception escaped. *)
Definition run_call (py : Builtins) (lib : ScheduleLib) (bot : NewsBot)
    (c : Call) : NewsBot :=
  match c with
  | call_start_conversation s => (start_conversation bot s).1
  | call_start_cancellation s => (start_cancellation bot s).1
  | call_show_schedules s => (show_schedules bot s).1
  | call_trigger_weekly_report s => (trigger_weekly_report bot s).1
  | call_handle_message env s text => (handle_message py lib env bot s text).1
  | call_run_pending t => run_pending lib t bot
  end.

Definition run_calls (py : Builtins) (lib : ScheduleLib) (calls : list Call)
    (bot : NewsBot) : NewsBot :=
  foldl (run_call py lib) bot calls.

(** The fields a step reads are set: the company name when the time is
    awaited, the target when the confirmation is awaited. *)
Definition task_ready (t : Task) : Prop :=
  match step t with
  | awaiting_schedule_time => is_Some (task_company_name t)
  | awaiting_cancellation_confirmation => is_Some (company_to_cancel t)
  | _ => True
  end.

Definition tasks_ready (bot : NewsBot) : Prop :=
  ∀ s ss t,
    conversation_state bot !! s = Some ss → current_task ss = Some t →
    task_ready t.

(** The job was registered for a Schedule of the session: same company,
    and for the Daily job the same time. *)
Definition job_of_schedule (j : Job) (sch : Schedule) : Prop :=
  company_name sch = job_company j
  ∧ (job_kind j = Daily → at_time j = Some (schedule_time sch)).

Definition jobs_have_schedules (bot : NewsBot) : Prop :=
  ∀ j, j ∈ scheduler bot →
    ∃ sch, sch ∈ schedules (session_of bot (job_session j))
           ∧ job_of_schedule j sch.

(** What a turn of [handle_message] for [session_id] did to the session's
    schedule list and to the scheduler's jobs. *)
Inductive TurnEffect (lib : ScheduleLib) (env : Collaborators)
    (session_id : pystr) (l : list Schedule) (jobs : list Job)
    : list Schedule → list Job → Prop :=
| effect_none : TurnEffect lib env session_id l jobs l jobs
| effect_registered (company time : pystr) :
    at_accepts lib time = true →
    TurnEffect lib env session_id l jobs
      (l ++ [{| company_name := company; schedule_time := time |}])
      (jobs ++ [daily_job lib env session_id company time;
                weekly_job lib env session_id company])
| effect_rejected (company time : pystr) :
    at_accepts lib time = false →
    TurnEffect lib env session_id l jobs
      (l ++ [{| company_name := company; schedule_time := time |}]) jobs
| effect_cancelled (target : option pystr) :
    TurnEffect lib env session_id l jobs
      (List.filter
         (fun s => negb (bool_decide (Some (company_name s) = target))) l)
      (clear target jobs).

(** The part of a job a scheduler tick leaves alone. *)
Definition job_identity (j : Job)
    : pystr * pystr * JobKind * Z * option pystr :=
  (job_session j, job_company j, job_kind j, interval j, at_time j).

(** Ascending in [next_run]. *)
Definition by_next_run (j k : Job) : Prop := next_run j <= next_run k.

(** ** The single-schedule variant

    The second class body [news_bot.py] holds (after the [=======] line):
    one state dict per session with at most one schedule, jobs tagged
    with the session id alone, handlers that run inside the scheduler
    loop and cancel their job when the session's state is gone. *)

Module Incoming.

Inductive Step :=
| awaiting_company_name
| awaiting_schedule_time
| scheduled
| awaiting_cancellation_confirmation.

(** A session's state dict. ["company_name"] may be missing ([None]),
    hold Python's [None] ([Some None]) or a string; ["schedule_time"] is
    missing until a time was parsed. *)
Record State := {
  step : Step;
  company_name : option (option pystr);
  schedule_time : option pystr;
}.

(** Jobs are objects: [job_id] stands for the object's identity. *)
Record Job := {
  job_id : nat;
  job_session : pystr;
  job_kind : JobKind;
  interval : Z;
  at_time : option pystr;
  next_run : Z;
}.

(** [.tag(session_id, 'daily' | 'weekly')] *)
Definition job_tags (j : Job) : list pystr :=
  [job_session j; kind_tag (job_kind j)].

Record NewsBot := {
  scheduler : list Job;
  next_job_id : nat;
  conversation_state : gmap pystr State;
  console : pystr;
}.

(** The collaborators of this variant: those of [Collaborators] for the
    content fetch, the summary prompt, the model and the clock, and the
    calls that receive the state's company name as it is (it may be
    [None]): the two searches, the crawler and the weekly prompt. *)
Record Services := {
  base : Collaborators;
  search_news_for : option pystr -> pystr -> result (list Article);
  crawl_naver_news : option pystr -> result (list Article);
  week_start : pystr;
  search_week : option pystr -> pystr -> pystr -> result (list Article);
  weekly_prompt : option pystr -> pystr -> pystr;
}.

Definition NewsBot_init : NewsBot :=
  {| scheduler := []; next_job_id := 0; conversation_state := ∅;
     console := [] |}.

(** [Scheduler.clear(tag)] *)
Definition clear (tag : pystr) (jobs : list Job) : list Job :=
  List.filter (fun j => negb (bool_decide (tag ∈ job_tags j))) jobs.

Definition set_step (s : Step) (st : State) : State :=
  {| step := s; company_name := company_name st;
     schedule_time := schedule_time st |}.

Definition set_company_name (c : pystr) (st : State) : State :=
  {| step := step st; company_name := Some (Some c);
     schedule_time := schedule_time st |}.

Definition set_schedule_time (t : pystr) (st : State) : State :=
  {| step := step st; company_name := company_name st;
     schedule_time := Some t |}.

Definition put_state (session_id : pystr) (st : State) (bot : NewsBot)
    : NewsBot :=
  {| scheduler := scheduler bot; next_job_id := next_job_id bot;
     conversation_state := <[session_id := st]> (conversation_state bot);
     console := console bot |}.

(** [self.conversation_state.pop(session_id, None)] *)
Definition pop_state (session_id : pystr) (bot : NewsBot) : NewsBot :=
  {| scheduler := scheduler bot; next_job_id := next_job_id bot;
     conversation_state := delete session_id (conversation_state bot);
     console := console bot |}.

Definition set_jobs (jobs : list Job) (bot : NewsBot) : NewsBot :=
  {| scheduler := jobs; next_job_id := next_job_id bot;
     conversation_state := conversation_state bot; console := console bot |}.

Definition write (text : pystr) (bot : NewsBot) : NewsBot :=
  {| scheduler := scheduler bot; next_job_id := next_job_id bot;
     conversation_state := conversation_state bot;
     console := console bot ++ text |}.

(** A value inside an f-string. *)
Definition fmt (v : option pystr) : pystr := default (utf8 "None") v.

Definition NO_STATE : pystr :=
  utf8 "죄송합니다. 대화 상태를 찾을 수 없습니다. 다시 시작해주세요.".
Definition NO_SCHEDULE_SET : pystr := utf8 "현재 설정된 뉴스 스케줄이 없습니다.".
Definition CONFIRM_ANY : pystr :=
  utf8 "설정된 정기 알림을 취소하시겠습니까? ('네' 또는 '아니오')".
Definition DONE : pystr := utf8 "대화가 완료되었습니다. 다른 질문이 있으신가요?".
Definition TIME_FORMAT_ERROR : pystr :=
  utf8 "시간 형식이 올바르지 않습니다. '오전 9시', '14:30' 와 같이 입력해주세요.".
Definition NEWS_NOT_FOUND (company : option pystr) : pystr :=
  fmt company ++ utf8 "의 최신 뉴스를 찾을 수 없습니다.".
Definition CANCELLED (company : option pystr) : pystr :=
  utf8 "'" ++ fmt company ++ utf8 "' 뉴스의 정기 알림이 취소되었습니다.".

(** [state["company_name"]] *)
Definition get_company_name (st : State) : result (option pystr) :=
  match company_name st with
  | Some v => Ok v
  | None => Raise (KeyError (utf8 "company_name"))
  end.

Section Methods.
Context (py : Builtins) (lib : ScheduleLib) (svc : Services).

Definition start_conversation (bot : NewsBot) (session_id : pystr)
    : NewsBot * pystr :=
  (put_state session_id
     {| step := awaiting_company_name; company_name := Some None;
        schedule_time := None |}
     bot,
   ASK_COMPANY).

Definition start_cancellation (bot : NewsBot) (session_id : pystr)
    : NewsBot * result pystr :=
  let without_state :=
    match List.filter (fun j => bool_decide (session_id ∈ job_tags j))
            (scheduler bot) with
    | [] => (pop_state session_id bot, Ok NO_SCHEDULE_SET)
    | _ :: _ =>
        (put_state session_id
           {| step := awaiting_cancellation_confirmation;
              company_name := None; schedule_time := None |}
           bot,
         Ok CONFIRM_ANY)
    end in
  match conversation_state bot !! session_id with
  | Some state =>
      match schedule_time state with
      | Some (_ :: _) =>
          match get_company_name state with
          | Raise e => (bot, Raise e)
          | Ok company =>
              (put_state session_id
                 (set_step awaiting_cancellation_confirmation state) bot,
               Ok (CONFIRM_CANCEL (fmt company)))
          end
      | _ => without_state
      end
  | None => without_state
  end.

Definition _fetch_and_summarize_latest_news (company : option pystr)
    : result (pystr * bool) :=
  try! found <- search_news_for svc company (today_str (base svc));
  try! news_list <-
    match found with
    | [] => crawl_naver_news svc company
    | _ :: _ => Ok found
    end;
  match news_list with
  | [] => Ok (NOT_FOUND, false)
  | latest_news :: _ =>
      match a_title latest_news, a_link latest_news with
      | None, _ => Raise (KeyError (utf8 "title"))
      | Some _, None => Raise (KeyError (utf8 "link"))
      | Some title, Some url =>
          try! content <- content_or_fetch (base svc) latest_news url;
          let prompt_text :=
            news_summary_prompt (base svc) title content url in
          try! summary <- llm_run (base svc) prompt_text;
          Ok (summary ++ NL ++ utf8 "출처: " ++ url, true)
      end
  end.

Definition daily_job (id : nat) (session_id time : pystr) : Job :=
  {| job_id := id; job_session := session_id; job_kind := Daily;
     interval := 1; at_time := Some time;
     next_run := schedule_next_run lib 1 (Some time) (now (base svc)) |}.

Definition weekly_job (id : nat) (session_id : pystr) : Job :=
  {| job_id := id; job_session := session_id; job_kind := Weekly;
     interval := 7; at_time := None;
     next_run := schedule_next_run lib 7 None (now (base svc)) |}.

Definition _schedule_jobs (bot : NewsBot) (session_id : pystr)
    : NewsBot * result unit :=
  match conversation_state bot !! session_id with
  | None => (bot, Raise (KeyError session_id))
  | Some state =>
      match schedule_time state with
      | None => (bot, Raise (KeyError (utf8 "schedule_time")))
      | Some time =>
          if at_accepts lib time then
            ({| scheduler :=
                  scheduler bot
                  ++ [daily_job (next_job_id bot) session_id time;
                      weekly_job (S (next_job_id bot)) session_id];
                next_job_id := S (S (next_job_id bot));
                conversation_state := conversation_state bot;
                console :=
                  print
                    (utf8 "[" ++ session_id
                     ++ utf8 "] 다음 작업 스케줄링됨: Daily @ " ++ time
                     ++ utf8 ", Weekly in 7 days.")
                    (console bot) |},
             Ok tt)
          else (bot, Raise ScheduleValueError)
      end
  end.

Definition handle_message (bot : NewsBot) (session_id user_input : pystr)
    : NewsBot * result pystr :=
  match conversation_state bot !! session_id with
  | None => (bot, Ok NO_STATE)
  | Some state =>
      match step state with
      | awaiting_cancellation_confirmation =>
          if list_in (str_lower py user_input) affirmatives then
            let bot := set_jobs (clear session_id (scheduler bot)) bot in
            let company :=
              match company_name state with
              | Some v => v
              | None => Some (utf8 "기존")
              end in
            (pop_state session_id bot, Ok (CANCELLED company))
          else (pop_state session_id bot, Ok KEEPING_SCHEDULE)
      | awaiting_company_name =>
          let company := str_strip py user_input in
          let state := set_company_name company state in
          let bot := put_state session_id state bot in
          match _fetch_and_summarize_latest_news (Some company) with
          | Raise e => (bot, Raise e)
          | Ok (summary, false) =>
              (pop_state session_id bot, Ok (NEWS_NOT_FOUND (Some company)))
          | Ok (summary, true) =>
              (put_state session_id (set_step awaiting_schedule_time state) bot,
               Ok (ASK_TIME company summary))
          end
      | awaiting_schedule_time =>
          if existsb (fun keyword => str_in keyword user_input) cancel_keywords
          then (pop_state session_id bot, Ok SETUP_CANCELLED)
          else
            match parse_schedule_time py user_input with
            | None => (bot, Ok TIME_FORMAT_ERROR)
            | Some schedule_time_str =>
                let state := set_schedule_time schedule_time_str state in
                let bot := put_state session_id state bot in
                match _schedule_jobs bot session_id with
                | (bot, Raise e) => (bot, Raise e)
                | (bot, Ok _) =>
                    let bot :=
                      put_state session_id (set_step scheduled state) bot in
                    match get_company_name state with
                    | Raise e => (bot, Raise e)
                    | Ok company =>
                        (bot, Ok (SCHEDULED schedule_time_str (fmt company)))
                    end
                end
            end
      | scheduled => (pop_state session_id bot, Ok DONE)
      end
  end.

(** What a handler hands back to the scheduler. *)
Inductive Returned := returned_None | returned_CancelJob.

Definition _send_daily_summary (bot : NewsBot) (session_id : pystr)
    : NewsBot * result Returned :=
  match conversation_state bot !! session_id with
  | None => (bot, Ok returned_CancelJob)
  | Some state =>
      match get_company_name state with
      | Raise e => (bot, Raise e)
      | Ok company =>
          let bot := write (DAILY_HEADER (fmt company) ++ NL) bot in
          match _fetch_and_summarize_latest_news company with
          | Raise e => (bot, Raise e)
          | Ok (summary, found) =>
              (write USER_PROMPT
                 (write ((if found then summary else NO_NEW_NEWS) ++ NL) bot),
               Ok returned_None)
          end
      end
  end.

Definition _send_weekly_report (bot : NewsBot) (session_id : pystr)
    : NewsBot * result Returned :=
  match conversation_state bot !! session_id with
  | None => (bot, Ok returned_CancelJob)
  | Some state =>
      match get_company_name state with
      | Raise e => (bot, Raise e)
      | Ok company =>
          let bot := write (WEEKLY_HEADER (fmt company) ++ NL) bot in
          match search_week svc company (week_start svc)
                  (today_str (base svc)) with
          | Raise e => (bot, Raise e)
          | Ok [] =>
              (write WEEKLY_FOOTER (write (NOTHING_THIS_WEEK ++ NL) bot),
               Ok returned_None)
          | Ok news_list =>
              match report_entries news_list with
              | Raise e => (bot, Raise e)
              | Ok news_for_report =>
                  let prompt :=
                    weekly_prompt svc company (str_join NL news_for_report) in
                  match llm_run (base svc) prompt with
                  | Raise e => (bot, Raise e)
                  | Ok report =>
                      (write WEEKLY_FOOTER (write (report ++ NL) bot),
                       Ok returned_None)
                  end
              end
          end
      end
  end.

Definition should_run (t : Z) (j : Job) : bool := next_run j <=? t.

(** [sorted(jobs)] compares by [next_run] and keeps the order of jobs
    that are due at the same time. *)
Fixpoint insert_job (j : Job) (l : list Job) : list Job :=
  match l with
  | [] => [j]
  | k :: l' =>
      if next_run k <? next_run j then k :: insert_job j l' else j :: l
  end.

Definition sorted_jobs (l : list Job) : list Job := foldr insert_job [] l.

Definition reschedule (t : Z) (j : Job) : Job :=
  {| job_id := job_id j; job_session := job_session j; job_kind := job_kind j;
     interval := interval j; at_time := at_time j;
     next_run := schedule_next_run lib (interval j) (at_time j) t |}.

Definition job_func (bot : NewsBot) (j : Job) : NewsBot * result Returned :=
  match job_kind j with
  | Daily => _send_daily_summary bot (job_session j)
  | Weekly => _send_weekly_report bot (job_session j)
  end.

(** [Scheduler._run_job]: the handler runs; the job is rescheduled, or
    removed when the handler returned [CancelJob]. An exception leaves the
    job as it was. *)
Definition _run_job (t : Z) (bot : NewsBot) (j : Job) : NewsBot * result unit :=
  match job_func bot j with
  | (bot, Raise e) => (bot, Raise e)
  | (bot, Ok returned_CancelJob) =>
      (set_jobs
         (List.filter (fun k => negb (job_id k =? job_id j)%nat) (scheduler bot))
         bot,
       Ok tt)
  | (bot, Ok returned_None) =>
      (set_jobs
         (map (fun k => if (job_id k =? job_id j)%nat then reschedule t k else k)
              (scheduler bot))
         bot,
       Ok tt)
  end.

Fixpoint run_jobs (t : Z) (due : list Job) (bot : NewsBot)
    : NewsBot * result unit :=
  match due with
  | [] => (bot, Ok tt)
  | j :: rest =>
      match _run_job t bot j with
      | (bot, Raise e) => (bot, Raise e)
      | (bot, Ok _) => run_jobs t rest bot
      end
  end.

(** [self.scheduler.run_pending()] at time [t]: the due jobs are listed
    first, then run in order; the first exception ends the tick (and with
    it [run_scheduler]'s loop). *)
Definition run_pending (t : Z) (bot : NewsBot) : NewsBot * result unit :=
  run_jobs t (sorted_jobs (List.filter (should_run t) (scheduler bot))) bot.

End Methods.


End Incoming.

(** A scenario of the variant: session s1 schedules Acme at 09:00. *)
Definition incoming_services : Incoming.Services := {|
  Incoming.base := news_env;
  Incoming.search_news_for := fun company _ =>
    Ok [article_about (default (utf8 "None") company)];
  Incoming.crawl_naver_news := fun _ => Ok [];
  Incoming.week_start := utf8 "2024-12-25";
  Incoming.search_week := fun _ _ _ => Ok [];
  Incoming.weekly_prompt := fun company articles =>
    default (utf8 "None") company ++ NL ++ articles;
|}.

Definition incoming_turn :=
  Incoming.handle_message ascii_builtins ref_schedule incoming_services.

Definition incoming_scheduled : Incoming.NewsBot :=
  let bot := (Incoming.start_conversation Incoming.NewsBot_init (utf8 "s1")).1 in
  let bot := (incoming_turn bot (utf8 "s1") (utf8 "Acme")).1 in
  (incoming_turn bot (utf8 "s1") (utf8 "09:00")).1.

(** The same session asked to confirm a cancellation, and the same
    session after a message that dropped its state. *)
Definition incoming_confirming : Incoming.NewsBot :=
  (Incoming.start_cancellation incoming_scheduled (utf8 "s1")).1.

Definition incoming_dropped : Incoming.NewsBot :=
  (incoming_turn incoming_scheduled (utf8 "s1") (utf8 "thanks")).1.

(** Two bots with the same jobs and, session by session, the same
    schedule lists. *)
Definition same_registry (bot bot' : NewsBot) : Prop :=
  scheduler bot' = scheduler bot
  ∧ ∀ s, schedules (session_of bot' s) = schedules (session_of bot s).

(** ** Properties *)

(** *** Strings *)

Example utf8_hangul : utf8 "아니" = [50500%N; 45768%N].
Proof. reflexivity. Qed.

Example utf8_emoji : utf8 "📰" = [128240%N].
Proof. reflexivity. Qed.

Example int_of_two : ascii_int (utf8 " 2 ") = Some 2.
Proof. reflexivity. Qed.

Example int_of_x : ascii_int (utf8 "x") = None.
Proof. reflexivity. Qed.

(** [int()] reads single underscores between digits, signs and leading
    zeros, and nothing else around the digits. *)
Example int_literals :
  ascii_int (utf8 "0_2") = Some 2
  ∧ ascii_int (utf8 "1_000") = Some 1000
  ∧ ascii_int (utf8 "-1") = Some (-1)
  ∧ ascii_int (utf8 "+007") = Some 7
  ∧ ascii_int (utf8 "2_") = None
  ∧ ascii_int (utf8 "_2") = None
  ∧ ascii_int (utf8 "1__2") = None
  ∧ ascii_int (utf8 "+-2") = None
  ∧ ascii_int (utf8 "+ 2") = None
  ∧ ascii_int (utf8 "2 3") = None
  ∧ ascii_int (utf8 "2.0") = None
  ∧ ascii_int (utf8 "") = None
  ∧ ascii_int (utf8 " ") = None
  ∧ ascii_int (utf8 "+") = None.
Proof. repeat apply conj; vm_compute; reflexivity. Qed.

(** The separators U+001C to U+001F are whitespace for [str.strip], not
    for [int()]. *)
Example separators_as_whitespace :
  ascii_strip [28%N; 32%N; 97%N; 32%N; 98%N; 9%N; 31%N] = [97%N; 32%N; 98%N]
  ∧ ascii_int [9%N; 50%N; 10%N] = Some 2
  ∧ ascii_int [28%N; 50%N] = None
  ∧ ascii_int [50%N; 31%N] = None.
Proof. repeat apply conj; vm_compute; reflexivity. Qed.

Lemma str_startswith_spec (p s : pystr) :
  str_startswith p s = true ↔ ∃ post, s = p ++ post.
Proof.
  revert s. induction p as [|a p IH]; intros s; simpl.
  - split; [intros _; by exists s | done].
  - destruct s as [|b s]; simpl.
    + split; [done | intros [post H]; discriminate].
    + rewrite andb_true_iff, N.eqb_eq, IH. split.
      * intros [-> [post ->]]. by exists post.
      * intros [post H]. injection H as -> ->. eauto.
Qed.

Lemma str_in_spec (needle hay : pystr) :
  str_in needle hay = true ↔ ∃ pre post, hay = pre ++ needle ++ post.
Proof.
  induction hay as [|c hay IH]; simpl.
  - rewrite orb_false_r, str_startswith_spec. split.
    + intros [post H]. by exists [], post.
    + intros [pre [post H]]. destruct pre; [by exists post|discriminate].
  - rewrite orb_true_iff, str_startswith_spec, IH. split.
    + intros [[post H] | [pre [post H]]].
      * by exists [], post.
      * exists (c :: pre), post. by rewrite H.
    + intros [pre [post H]]. destruct pre as [|c' pre]; simpl in H.
      * left. by exists post.
      * right. injection H as -> ->. eauto.
Qed.

Lemma has_cancel_keyword (input kw : pystr) :
  kw ∈ cancel_keywords →
  (∃ pre post, input = pre ++ kw ++ post) →
  existsb (fun keyword => str_in keyword input) cancel_keywords = true.
Proof.
  intros Hkw Hin. apply existsb_exists. exists kw. split.
  - by apply list_elem_of_In.
  - by apply str_in_spec.
Qed.

(** *** Unfolding a turn *)

Section Turn.
Context (py : Builtins) (lib : ScheduleLib) (env : Collaborators).
Context (bot : NewsBot) (session_id : pystr) (session_state : SessionState).
Hypothesis Hsession : conversation_state bot !! session_id = Some session_state.

Lemma get_existing_session :
  _get_session_state bot session_id = (bot, session_state).
Proof using Hsession. unfold _get_session_state. by rewrite Hsession. Qed.

Lemma put_same_session : put_session session_id session_state bot = bot.
Proof using Hsession.
  destruct bot as [j cs th co]. unfold put_session. simpl in *.
  by rewrite insert_id.
Qed.
End Turn.

Lemma get_missing_session (bot : NewsBot) (session_id : pystr) :
  conversation_state bot !! session_id = None →
  _get_session_state bot session_id
  = (put_session session_id fresh_session bot, fresh_session).
Proof. intros H. unfold _get_session_state. by rewrite H. Qed.

Lemma lookup_put_session (bot : NewsBot) (s s' : pystr) (ss : SessionState) :
  conversation_state (put_session s ss bot) !! s'
  = if decide (s = s') then Some ss else conversation_state bot !! s'.
Proof. unfold put_session. simpl. apply lookup_insert. Qed.

Lemma put_put_session (bot : NewsBot) (s : pystr) (ss ss' : SessionState) :
  put_session s ss' (put_session s ss bot) = put_session s ss' bot.
Proof. unfold put_session. simpl. by rewrite insert_insert_eq. Qed.

(** *** Time parsing and the cancel keywords *)

Lemma digits_of_app (py : Builtins) (s1 s2 : pystr) :
  digits_of py (s1 ++ s2) = digits_of py s1 ++ digits_of py s2.
Proof. apply List.filter_app. Qed.

Lemma digits_of_others (py : Builtins) (s : pystr) :
  Forall (fun c => str_isdigit py c = false) s → digits_of py s = [].
Proof.
  induction 1 as [|c s Hc _ IH]; [done|].
  unfold digits_of in *. simpl. by rewrite Hc.
Qed.

Lemma digits_of_digit (py : Builtins) (c : codepoint) (s : pystr) :
  str_isdigit py c = true → digits_of py (c :: s) = c :: digits_of py s.
Proof. intros Hc. unfold digits_of. simpl. by rewrite Hc. Qed.

Lemma digits_of_two (py : Builtins) (n0 n1 n2 : pystr) (d1 d2 : codepoint) :
  Forall (fun c => str_isdigit py c = false) n0 →
  str_isdigit py d1 = true →
  Forall (fun c => str_isdigit py c = false) n1 →
  str_isdigit py d2 = true →
  Forall (fun c => str_isdigit py c = false) n2 →
  digits_of py (n0 ++ d1 :: n1 ++ d2 :: n2) = [d1; d2].
Proof.
  intros H0 H1 H2 H3 H4.
  rewrite digits_of_app, (digits_of_others _ _ H0), (digits_of_digit _ _ _ H1).
  rewrite digits_of_app, (digits_of_others _ _ H2), (digits_of_digit _ _ _ H3).
  by rewrite (digits_of_others _ _ H4).
Qed.

Lemma parse_schedule_time_spec (py : Builtins) (user_input : pystr) :
  let d := digits_of py user_input in
  (length d = 2%nat →
     parse_schedule_time py user_input = Some (d ++ utf8 ":00"))
  ∧ (length d = 4%nat →
       parse_schedule_time py user_input
       = Some (take 2 d ++ utf8 ":" ++ drop 2 d))
  ∧ (length d ≠ 2%nat → length d ≠ 4%nat →
       parse_schedule_time py user_input = None).
Proof.
  intros d. unfold parse_schedule_time. fold d. repeat split.
  - intros H. by rewrite decide_True.
  - intros H. rewrite decide_False by lia. by rewrite decide_True.
  - intros H2 H4. by rewrite !decide_False.
Qed.

Lemma no_cancel_keyword (input : pystr) :
  (∀ kw pre post, kw ∈ cancel_keywords → input ≠ pre ++ kw ++ post) ↔
  existsb (fun keyword => str_in keyword input) cancel_keywords = false.
Proof.
  split.
  - intros Hno. apply not_true_is_false. intros Hex.
    apply existsb_exists in Hex as (kw & Hkw & Hin).
    apply str_in_spec in Hin as (pre & post & Hin).
    apply list_elem_of_In in Hkw. by apply (Hno kw pre post).
  - intros Hex kw pre post Hkw Hin.
    rewrite (has_cancel_keyword input kw) in Hex; [done | done | eauto].
Qed.

(** What a turn of the time step does once it has read [time] from the
    input: the time is stored in the pending task, then the schedule
    record, the reply and the daily job carry it. *)
Lemma time_step_reads (py : Builtins) (lib : ScheduleLib)
    (env : Collaborators) (bot : NewsBot) (session_id : pystr)
    (session_state : SessionState) (task : Task) (user_input time : pystr) :
  conversation_state bot !! session_id = Some session_state →
  current_task session_state = Some task →
  step task = awaiting_schedule_time →
  existsb (fun keyword => str_in keyword user_input) cancel_keywords = false →
  parse_schedule_time py user_input = Some time →
  let r := handle_message py lib env bot session_id user_input in
  match task_company_name task with
  | Some company =>
      schedules (session_of r.1 session_id)
      = schedules session_state
        ++ [{| company_name := company; schedule_time := time |}]
      ∧ if at_accepts lib time
        then r.2 = Ok (utf8 "알겠습니다. 매일 " ++ time ++ utf8 "에 "
                       ++ company ++ utf8 " 뉴스를 보내드릴게요.")
             ∧ ∃ daily weekly,
                 scheduler r.1 = scheduler bot ++ [daily; weekly]
                 ∧ job_kind daily = Daily ∧ at_time daily = Some time
        else r.2 = Raise ScheduleValueError ∧ scheduler r.1 = scheduler bot
  | None =>
      r.2 = Raise (KeyError (utf8 "company_name"))
      ∧ (task_schedule_time <$> current_task (session_of r.1 session_id))
        = Some (Some time)
  end.
Proof.
  intros Hs Ht Hstep Hkw Hparse r. unfold r, handle_message.
  rewrite (get_existing_session _ _ _ Hs), Ht, Hstep, Hkw, Hparse.
  cbn [task_company_name set_task_schedule_time].
  destruct (task_company_name task) as [company|].
  - unfold _schedule_jobs. cbn [conversation_state put_session scheduler].
    destruct (at_accepts lib time).
    + cbn [fst snd]. split; [|split; [unfold SCHEDULED; reflexivity|]].
      * unfold session_of, put_session. cbn [conversation_state].
        by rewrite insert_insert_eq, lookup_insert_eq.
      * eexists _, _. cbn [scheduler put_session]. split; [reflexivity|].
        by split.
    + cbn [fst snd]. split; [|by split].
      unfold session_of, put_session. cbn [conversation_state].
      by rewrite lookup_insert_eq.
  - cbn [fst snd]. split; [done|].
    unfold session_of, put_session. cbn [conversation_state].
    by rewrite lookup_insert_eq.
Qed.

(** C6 — In the [awaiting_schedule_time] step the time is read from the
    digit characters of the input (the characters [str.isdigit] accepts),
    in order, whatever stands before, between and after them. An input
    with exactly two digits [d1 d2] is read as ["d1d2:00"]; one with
    exactly four digits [d1 d2 d3 d4] as ["d1d2:d3d4"]. The time read is
    the one the turn goes on with: the schedule record appended to the
    session's list holds it, and when the scheduler accepts it the reply
    names it and the daily job is registered at it (when the scheduler
    rejects it, its error escapes; without a company name in the task, a
    [KeyError] escapes after the time was stored in the task). With any
    other number of digits (none included) the turn replies with the
    format error and changes nothing. Parsing is reached when the input
    holds no cancel keyword. *)
Theorem time_parsing (py : Builtins) (lib : ScheduleLib)
    (env : Collaborators) (bot : NewsBot) (session_id : pystr)
    (session_state : SessionState) (task : Task) (user_input : pystr) :
  conversation_state bot !! session_id = Some session_state →
  current_task session_state = Some task →
  step task = awaiting_schedule_time →
  (∀ kw pre post, kw ∈ cancel_keywords → user_input ≠ pre ++ kw ++ post) →
  let r := handle_message py lib env bot session_id user_input in
  let digit (c : codepoint) := str_isdigit py c = true in
  let others (s : pystr) := Forall (fun c => str_isdigit py c = false) s in
  let read_as (time : pystr) :=
    match task_company_name task with
    | Some company =>
        schedules (session_of r.1 session_id)
        = schedules session_state
          ++ [{| company_name := company; schedule_time := time |}]
        ∧ if at_accepts lib time
          then r.2 = Ok (utf8 "알겠습니다. 매일 " ++ time ++ utf8 "에 "
                         ++ company ++ utf8 " 뉴스를 보내드릴게요.")
               ∧ ∃ daily weekly,
                   scheduler r.1 = scheduler bot ++ [daily; weekly]
                   ∧ job_kind daily = Daily ∧ at_time daily = Some time
          else r.2 = Raise ScheduleValueError
               ∧ scheduler r.1 = scheduler bot
    | None =>
        r.2 = Raise (KeyError (utf8 "company_name"))
        ∧ (task_schedule_time <$> current_task (session_of r.1 session_id))
          = Some (Some time)
    end in
  (∀ n0 d1 n1 d2 n2,
     user_input = n0 ++ d1 :: n1 ++ d2 :: n2 →
     others n0 → digit d1 → others n1 → digit d2 → others n2 →
     read_as ([d1; d2] ++ utf8 ":00"))
  ∧ (∀ n0 d1 n1 d2 n2 d3 n3 d4 n4,
       user_input = n0 ++ d1 :: n1 ++ d2 :: n2 ++ d3 :: n3 ++ d4 :: n4 →
       others n0 → digit d1 → others n1 → digit d2 → others n2 →
       digit d3 → others n3 → digit d4 → others n4 →
       read_as ([d1; d2] ++ utf8 ":" ++ [d3; d4]))
  ∧ (length (List.filter (str_isdigit py) user_input) ≠ 2%nat →
     length (List.filter (str_isdigit py) user_input) ≠ 4%nat →
     r = (bot, Ok TIME_FORMAT_ERROR)).
Proof.
  intros Hs Ht Hstep Hkw r digit others read_as.
  apply no_cancel_keyword in Hkw.
  destruct (parse_schedule_time_spec py user_input) as (P2 & P4 & Pn).
  split; [|split].
  - intros n0 d1 n1 d2 n2 -> H0 H1 H2 H3 H4.
    pose proof (digits_of_two py n0 n1 n2 d1 d2 H0 H1 H2 H3 H4) as Hd.
    cbv zeta in P2. rewrite Hd in P2. specialize (P2 eq_refl).
    exact (time_step_reads py lib env bot session_id session_state task _ _
             Hs Ht Hstep Hkw P2).
  - intros n0 d1 n1 d2 n2 d3 n3 d4 n4 -> H0 H1 H2 H3 H4 H5 H6 H7 H8.
    assert (Hd : digits_of py
                   (n0 ++ d1 :: n1 ++ d2 :: n2 ++ d3 :: n3 ++ d4 :: n4)
                 = [d1; d2; d3; d4]).
    { rewrite digits_of_app, (digits_of_others _ _ H0),
        (digits_of_digit _ _ _ H1).
      rewrite digits_of_app, (digits_of_others _ _ H2),
        (digits_of_digit _ _ _ H3).
      by rewrite (digits_of_two py n2 n3 n4 d3 d4 H4 H5 H6 H7 H8). }
    cbv zeta in P4. rewrite Hd in P4. specialize (P4 eq_refl).
    exact (time_step_reads py lib env bot session_id session_state task _ _
             Hs Ht Hstep Hkw P4).
  - intros H2 H4. unfold r, handle_message.
    rewrite (get_existing_session _ _ _ Hs), Ht, Hstep, Hkw.
    by rewrite (Pn H2 H4).
Qed.

Lemma time_parsing_witness :
  let turn := handle_message ascii_builtins ref_schedule news_env
                asked_for_time (utf8 "s1") in
  (turn (utf8 "14")).2
  = Ok (utf8 "알겠습니다. 매일 14:00에 Acme 뉴스를 보내드릴게요.")
  ∧ (turn (utf8 "0900")).2
    = Ok (utf8 "알겠습니다. 매일 09:00에 Acme 뉴스를 보내드릴게요.")
  ∧ (turn (utf8 "1430")).2
    = Ok (utf8 "알겠습니다. 매일 14:30에 Acme 뉴스를 보내드릴게요.")
  ∧ (turn (utf8 "14:30")).2
    = Ok (utf8 "알겠습니다. 매일 14:30에 Acme 뉴스를 보내드릴게요.")
  ∧ (turn (utf8 "at 1 or 9 pm")).2
    = Ok (utf8 "알겠습니다. 매일 19:00에 Acme 뉴스를 보내드릴게요.")
  ∧ schedules (session_of (turn (utf8 "14:30")).1 (utf8 "s1"))
    = [{| company_name := utf8 "Acme"; schedule_time := utf8 "14:30" |}]
  ∧ turn (utf8 "abcdefg") = (asked_for_time, Ok TIME_FORMAT_ERROR)
  ∧ turn (utf8 "9:30") = (asked_for_time, Ok TIME_FORMAT_ERROR).
Proof.
  intros turn.
  pose (task := {| step := awaiting_schedule_time;
                   task_company_name := Some (utf8 "Acme");
                   task_schedule_time := None;
                   company_to_cancel := None |}).
  pose (ss := {| schedules := []; current_task := Some task |}).
  assert (Hs : conversation_state asked_for_time !! utf8 "s1" = Some ss)
    by (vm_compute; reflexivity).
  assert (Hkw : ∀ input,
            existsb (fun keyword => str_in keyword input) cancel_keywords
            = false →
            ∀ kw pre post, kw ∈ cancel_keywords → input ≠ pre ++ kw ++ post).
  { intros input H. by apply no_cancel_keyword. }
  pose proof (fun input H =>
                time_parsing ascii_builtins ref_schedule news_env
                  asked_for_time (utf8 "s1") ss task input
                  Hs eq_refl eq_refl (Hkw input H)) as T.
  destruct (T (utf8 "14") ltac:(vm_compute; reflexivity)) as (A & _ & _).
  specialize (A [] 49%N [] 52%N [] ltac:(vm_compute; reflexivity)
                (Forall_nil_2 _) eq_refl (Forall_nil_2 _) eq_refl
                (Forall_nil_2 _)).
  destruct (T (utf8 "0900") ltac:(vm_compute; reflexivity)) as (_ & B & _).
  specialize (B [] 48%N [] 57%N [] 48%N [] 48%N []
                ltac:(vm_compute; reflexivity)
                (Forall_nil_2 _) eq_refl (Forall_nil_2 _) eq_refl
                (Forall_nil_2 _) eq_refl (Forall_nil_2 _) eq_refl
                (Forall_nil_2 _)).
  destruct (T (utf8 "1430") ltac:(vm_compute; reflexivity)) as (_ & C & _).
  specialize (C [] 49%N [] 52%N [] 51%N [] 48%N []
                ltac:(vm_compute; reflexivity)
                (Forall_nil_2 _) eq_refl (Forall_nil_2 _) eq_refl
                (Forall_nil_2 _) eq_refl (Forall_nil_2 _) eq_refl
                (Forall_nil_2 _)).
  destruct (T (utf8 "14:30") ltac:(vm_compute; reflexivity)) as (_ & D & _).
  specialize (D [] 49%N [] 52%N [58%N] 51%N [] 48%N []
                ltac:(vm_compute; reflexivity)
                (Forall_nil_2 _) eq_refl (Forall_nil_2 _) eq_refl
                ltac:(by repeat constructor) eq_refl (Forall_nil_2 _) eq_refl
                (Forall_nil_2 _)).
  destruct (T (utf8 "at 1 or 9 pm") ltac:(vm_compute; reflexivity))
    as (E & _ & _).
  specialize (E (utf8 "at ") 49%N (utf8 " or ") 57%N (utf8 " pm")
                ltac:(vm_compute; reflexivity)
                ltac:(vm_compute; by repeat constructor) eq_refl
                ltac:(vm_compute; by repeat constructor) eq_refl
                ltac:(vm_compute; by repeat constructor)).
  destruct (T (utf8 "abcdefg") ltac:(vm_compute; reflexivity)) as (_ & _ & F).
  specialize (F ltac:(vm_compute; lia) ltac:(vm_compute; lia)).
  destruct (T (utf8 "9:30") ltac:(vm_compute; reflexivity)) as (_ & _ & G).
  specialize (G ltac:(vm_compute; lia) ltac:(vm_compute; lia)).
  clear T Hkw Hs.
  vm_compute in A, B, C, D, E.
  destruct A as [_ [A _]], B as [_ [B _]], C as [_ [C _]],
    D as [D1 [D2 _]], E as [_ [E _]].
  unfold turn. rewrite F, G.
  repeat apply conj;
    [vm_compute; exact A | vm_compute; exact B | vm_compute; exact C
    |vm_compute; exact D2 | vm_compute; exact E | vm_compute; exact D1
    |reflexivity | reflexivity].
Defined.



(** *** Choosing the schedule to cancel *)

Lemma choose_in_range (l : list Schedule) (i : nat) (s : Schedule) :
  l !! i = Some s → choose l (Z.of_nat i) = Some s.
Proof.
  intros H. unfold choose. pose proof (lookup_lt_Some _ _ _ H) as Hlt.
  replace (0 <=? Z.of_nat i) with true by (symmetry; apply Z.leb_le; lia).
  replace (Z.of_nat i <? Z.of_nat (length l)) with true
    by (symmetry; apply Z.ltb_lt; lia).
  simpl. by rewrite Nat2Z.id.
Qed.

Lemma choose_out_of_range (l : list Schedule) (i : Z) :
  i < 0 ∨ Z.of_nat (length l) <= i → choose l i = None.
Proof.
  intros H. unfold choose. destruct H as [H | H].
  - replace (0 <=? i) with false by (symmetry; apply Z.leb_gt; lia). done.
  - replace (i <? Z.of_nat (length l)) with false
      by (symmetry; apply Z.ltb_ge; lia).
    by rewrite andb_false_r.
Qed.

(** C7 — In the [awaiting_cancellation_choice] step, for a session whose
    schedule list is [A, B, C]: an input that [int()] reads as 2 selects B.
    The turn leaves the bot as it was but for the pending task of this
    session, whose [company_to_cancel] now holds B's company and whose step
    is [awaiting_cancellation_confirmation]; the schedule list is still
    [A, B, C], and the reply asks to confirm B's company. An input read as
    0 or as 4 gets the invalid-number reply and changes nothing; an input
    [int()] rejects gets the enter-a-number reply and changes nothing. *)
Theorem cancellation_choice_index (py : Builtins) (lib : ScheduleLib)
    (env : Collaborators) (bot : NewsBot) (session_id : pystr)
    (session_state : SessionState) (task : Task) (A B C : Schedule) :
  conversation_state bot !! session_id = Some session_state →
  current_task session_state = Some task →
  step task = awaiting_cancellation_choice →
  schedules session_state = [A; B; C] →
  (∀ user_input, int_of_str py user_input = Some 2 →
     handle_message py lib env bot session_id user_input
     = ({| scheduler := scheduler bot;
           conversation_state :=
             <[session_id :=
                 {| schedules := [A; B; C];
                    current_task :=
                      Some {| step := awaiting_cancellation_confirmation;
                              task_company_name := task_company_name task;
                              task_schedule_time := task_schedule_time task;
                              company_to_cancel := Some (company_name B) |} |}]>
               (conversation_state bot);
           threads := threads bot;
           console := console bot |},
        Ok (utf8 "알겠습니다. '" ++ company_name B
            ++ utf8 "' 뉴스의 정기 알림을 취소하시겠습니까? ('네' 또는 '아니오')")))
  ∧ (∀ user_input,
       int_of_str py user_input = Some 0 ∨ int_of_str py user_input = Some 4 →
       handle_message py lib env bot session_id user_input
       = (bot, Ok INVALID_NUMBER))
  ∧ (∀ user_input, int_of_str py user_input = None →
       handle_message py lib env bot session_id user_input
       = (bot, Ok ENTER_A_NUMBER)).
Proof.
  intros Hs Ht Hstep Hl.
  split; [|split]; intros user_input Hint; unfold handle_message;
    rewrite (get_existing_session _ _ _ Hs), Ht, Hstep.
  - rewrite Hint, Hl. change (2 - 1) with (Z.of_nat 1).
    rewrite (choose_in_range [A; B; C] 1 B) by done.
    unfold put_session, set_current_task, set_company_to_cancel, set_step.
    cbn [step task_company_name task_schedule_time company_to_cancel schedules].
    by rewrite Hl.
  - destruct Hint as [-> | ->]; rewrite Hl.
    + by rewrite choose_out_of_range by (left; lia).
    + by rewrite choose_out_of_range by (right; simpl; lia).
  - by rewrite Hint.
Qed.

Lemma cancellation_choice_index_witness :
  let turn := handle_message ascii_builtins ref_schedule news_env choosing
                (utf8 "s1") in
  let chosen : option SessionState :=
    conversation_state (turn (utf8 "2")).1 !! utf8 "s1" in
  (turn (utf8 "2")).2
  = Ok (utf8 "알겠습니다. 'B' 뉴스의 정기 알림을 취소하시겠습니까? ('네' 또는 '아니오')")
  ∧ (company_to_cancel <$> (chosen ≫= current_task)) = Some (Some (utf8 "B"))
  ∧ (step <$> (chosen ≫= current_task))
    = Some awaiting_cancellation_confirmation
  ∧ (schedules <$> chosen)
    = Some [ {| company_name := utf8 "A"; schedule_time := utf8 "09:00" |};
             {| company_name := utf8 "B"; schedule_time := utf8 "10:00" |};
             {| company_name := utf8 "C"; schedule_time := utf8 "11:00" |} ]
  ∧ scheduler (turn (utf8 "2")).1 = scheduler choosing
  ∧ map job_company
      (scheduler
         (handle_message ascii_builtins ref_schedule news_env
            (turn (utf8 "2")).1 (utf8 "s1") (utf8 "네")).1)
    = [utf8 "A"; utf8 "A"; utf8 "C"; utf8 "C"]
  ∧ turn (utf8 "0") = (choosing, Ok INVALID_NUMBER)
  ∧ turn (utf8 "4") = (choosing, Ok INVALID_NUMBER)
  ∧ turn (utf8 "x") = (choosing, Ok ENTER_A_NUMBER).
Proof.
  intros turn.
  destruct (cancellation_choice_index ascii_builtins ref_schedule news_env
              choosing (utf8 "s1")
              {| schedules :=
                   [ {| company_name := utf8 "A"; schedule_time := utf8 "09:00" |};
                     {| company_name := utf8 "B"; schedule_time := utf8 "10:00" |};
                     {| company_name := utf8 "C"; schedule_time := utf8 "11:00" |} ];
                 current_task := Some (new_task awaiting_cancellation_choice) |}
              (new_task awaiting_cancellation_choice) _ _ _
              ltac:(vm_compute; reflexivity) eq_refl eq_refl eq_refl)
    as (H2 & H04 & Hx).
  intros chosen. unfold chosen, turn.
  rewrite (H2 (utf8 "2") eq_refl).
  rewrite (H04 (utf8 "0") (or_introl eq_refl)).
  rewrite (H04 (utf8 "4") (or_intror eq_refl)).
  rewrite (Hx (utf8 "x") eq_refl).
  repeat apply conj; vm_compute; reflexivity.
Defined.

(** *** Confirming a cancellation *)

Lemma filter_none {A} (f : A → bool) (l : list A) :
  (∀ x, x ∈ l → f x = false) → List.filter f l = [].
Proof.
  induction l as [|a l IH]; intros H; simpl; [done|].
  rewrite (H a) by set_solver. apply IH. intros x Hx. apply H. set_solver.
Qed.

Lemma elem_of_clear (tag : pystr) (jobs : list Job) (j : Job) :
  j ∈ clear (Some tag) jobs ↔ j ∈ jobs ∧ tag ∉ job_tags j.
Proof.
  unfold clear. rewrite (list_elem_of_In _ j), (list_elem_of_In jobs j).
  by rewrite filter_In, negb_true_iff, bool_decide_eq_false.
Qed.

Lemma confirm_cancellation (py : Builtins) (lib : ScheduleLib)
    (env : Collaborators) (bot : NewsBot) (session_id : pystr)
    (session_state : SessionState) (task : Task) (user_input : pystr) :
  conversation_state bot !! session_id = Some session_state →
  current_task session_state = Some task →
  step task = awaiting_cancellation_confirmation →
  list_in (str_lower py user_input) affirmatives = true →
  handle_message py lib env bot session_id user_input
  = (put_session session_id
       (set_current_task None
          (set_schedules
             (List.filter
                (fun s => negb (bool_decide
                                  (Some (company_name s) = company_to_cancel task)))
                (schedules session_state))
             session_state))
       (set_scheduler (clear (company_to_cancel task) (scheduler bot)) bot),
     Ok (CANCELLED (company_to_cancel task))).
Proof.
  intros Hs Ht Hstep Haff. unfold handle_message.
  by rewrite (get_existing_session _ _ _ Hs), Ht, Hstep, Haff.
Qed.

(** C9 — Confirming the cancellation of company X in session s1 clears the
    scheduler by the tag X alone: the jobs left are exactly those that do
    not carry the tag X, so for every other session s2 the Daily and the
    Weekly job it registered for X are removed too, while the state of s2
    (its Schedule record for X included) stays as it was. *)
Theorem cancellation_clears_by_subject (py : Builtins) (lib : ScheduleLib)
    (env : Collaborators) (bot : NewsBot) (s1 : pystr)
    (session_state : SessionState) (task : Task) (X user_input : pystr) :
  conversation_state bot !! s1 = Some session_state →
  current_task session_state = Some task →
  step task = awaiting_cancellation_confirmation →
  company_to_cancel task = Some X →
  list_in (str_lower py user_input) affirmatives = true →
  let bot' := (handle_message py lib env bot s1 user_input).1 in
  (∀ j, j ∈ scheduler bot' ↔ j ∈ scheduler bot ∧ X ∉ job_tags j)
  ∧ ∀ s2, s2 ≠ s1 →
      (∀ j, job_for s2 X j → j ∉ scheduler bot')
      ∧ jobs_tagged s2 X Daily (scheduler bot') = []
      ∧ jobs_tagged s2 X Weekly (scheduler bot') = []
      ∧ conversation_state bot' !! s2 = conversation_state bot !! s2.
Proof.
  intros Hs Ht Hstep Htarget Haff bot'.
  assert (Hjobs : scheduler bot' = clear (Some X) (scheduler bot)).
  { unfold bot'.
    by rewrite (confirm_cancellation _ _ _ _ _ _ _ _ Hs Ht Hstep Haff), Htarget. }
  assert (Hgone : ∀ s2 k, jobs_tagged s2 X k (scheduler bot') = []).
  { intros s2 k. unfold jobs_tagged. apply filter_none.
    intros j Hj.
    rewrite Hjobs in Hj. apply elem_of_clear in Hj as [_ HX].
    apply bool_decide_eq_false. tauto. }
  split.
  - intros j. rewrite Hjobs. apply elem_of_clear.
  - intros s2 Hne. repeat split; [| apply Hgone | apply Hgone |].
    + intros j [_ Hc] Hj. rewrite Hjobs in Hj.
      apply elem_of_clear in Hj as [_ HX]. apply HX.
      unfold job_tags. rewrite Hc. set_solver.
    + unfold bot'.
      rewrite (confirm_cancellation _ _ _ _ _ _ _ _ Hs Ht Hstep Haff).
      simpl. by rewrite lookup_insert_ne.
Qed.

Lemma cancellation_clears_by_subject_witness :
  let bot' := (handle_message ascii_builtins ref_schedule news_env confirming
                 (utf8 "s1") (utf8 "네")).1 in
  length (jobs_tagged (utf8 "s2") (utf8 "Acme") Daily (scheduler confirming)) = 1%nat
  ∧ length (jobs_tagged (utf8 "s2") (utf8 "Acme") Weekly (scheduler confirming)) = 1%nat
  ∧ jobs_tagged (utf8 "s2") (utf8 "Acme") Daily (scheduler bot') = []
  ∧ jobs_tagged (utf8 "s2") (utf8 "Acme") Weekly (scheduler bot') = []
  ∧ schedules <$> conversation_state bot' !! utf8 "s2"
    = Some [ {| company_name := utf8 "Acme"; schedule_time := utf8 "10:30" |} ].
Proof.
  intros bot'.
  destruct (cancellation_clears_by_subject ascii_builtins ref_schedule news_env
              confirming (utf8 "s1")
              {| schedules :=
                   [ {| company_name := utf8 "Acme";
                        schedule_time := utf8 "09:00" |} ];
                 current_task :=
                   Some (set_company_to_cancel (utf8 "Acme")
                           (new_task awaiting_cancellation_confirmation)) |}
              _ (utf8 "Acme") (utf8 "네")
              ltac:(vm_compute; reflexivity) eq_refl eq_refl eq_refl
              ltac:(vm_compute; reflexivity))
    as [_ H].
  destruct (H (utf8 "s2") ltac:(discriminate)) as (_ & Hd & Hw & Hst).
  fold bot' in Hd, Hw, Hst.
  rewrite Hd, Hw, Hst.
  repeat split; vm_compute; reflexivity.
Defined.

(** *** A message with no pending task *)

Lemma idle_turn_existing (py : Builtins) (lib : ScheduleLib)
    (env : Collaborators) (bot : NewsBot) (session_id user_input : pystr)
    (session_state : SessionState) :
  conversation_state bot !! session_id = Some session_state →
  current_task session_state = None →
  handle_message py lib env bot session_id user_input
  = (bot, Ok NO_ACTIVE_TASK).
Proof.
  intros Hs Ht. unfold handle_message.
  by rewrite (get_existing_session _ _ _ Hs), Ht.
Qed.

(** C3, as the code has it — For a session id with no entry in the store,
    [handle_message] returns the fixed idle message and creates the entry:
    a session with no schedules and no pending task. The entries of all
    other sessions, the jobs, the threads and the console are unchanged. *)
Theorem idle_turn_creates_session (py : Builtins) (lib : ScheduleLib)
    (env : Collaborators) (bot : NewsBot) (session_id user_input : pystr) :
  conversation_state bot !! session_id = None →
  let r := handle_message py lib env bot session_id user_input in
  r.2 = Ok NO_ACTIVE_TASK
  ∧ conversation_state r.1 !! session_id = Some fresh_session
  ∧ (∀ s, s ≠ session_id →
       conversation_state r.1 !! s = conversation_state bot !! s)
  ∧ scheduler r.1 = scheduler bot
  ∧ threads r.1 = threads bot
  ∧ console r.1 = console bot.
Proof.
  intros Hs r. unfold r, handle_message.
  rewrite (get_missing_session _ _ Hs). simpl.
  repeat split.
  - apply lookup_insert_eq.
  - intros s Hne. by apply lookup_insert_ne.
Qed.

Lemma idle_turn_creates_session_witness :
  (handle_message ascii_builtins ref_schedule news_env NewsBot_init
     (utf8 "s2") (utf8 "hello")).2 = Ok NO_ACTIVE_TASK
  ∧ conversation_state
      (handle_message ascii_builtins ref_schedule news_env NewsBot_init
         (utf8 "s2") (utf8 "hello")).1 !! utf8 "s2"
    = Some fresh_session.
Proof.
  destruct (idle_turn_creates_session ascii_builtins ref_schedule news_env
              NewsBot_init (utf8 "s2") (utf8 "hello") eq_refl)
    as (Hr & Hc & _).
  split; [exact Hr | exact Hc].
Defined.

(** C3, as stated, fails: a first message from session ["s2"] leaves an
    entry for ["s2"] in a store that had none. *)
Lemma idle_turn_not_stateless :
  conversation_state NewsBot_init !! utf8 "s2" = None
  ∧ (handle_message ascii_builtins ref_schedule news_env NewsBot_init
       (utf8 "s2") (utf8 "hello")).2 = Ok NO_ACTIVE_TASK
  ∧ conversation_state
      (handle_message ascii_builtins ref_schedule news_env NewsBot_init
         (utf8 "s2") (utf8 "hello")).1
    = {[ utf8 "s2" := fresh_session ]}
  ∧ conversation_state
      (handle_message ascii_builtins ref_schedule news_env NewsBot_init
         (utf8 "s2") (utf8 "hello")).1
    ≠ conversation_state NewsBot_init.
Proof.
  repeat split.
  intros H.
  apply (f_equal (fun m : gmap pystr SessionState => m !! utf8 "s2")) in H.
  vm_compute in H. discriminate.
Qed.

(** *** The entry points and the pending task *)

Lemma session_of_put (bot : NewsBot) (s : pystr) (ss : SessionState) :
  session_of (put_session s ss bot) s = ss.
Proof. unfold session_of. by rewrite lookup_put_session, decide_True. Qed.

Lemma get_session_state_spec (bot : NewsBot) (s : pystr) :
  (_get_session_state bot s).2 = session_of bot s
  ∧ session_of (_get_session_state bot s).1 s = session_of bot s.
Proof.
  unfold _get_session_state, session_of.
  destruct (conversation_state bot !! s) as [ss|] eqn:E; simpl.
  - by rewrite E.
  - by rewrite lookup_insert_eq.
Qed.

(** C10, as the code has it — A session has one slot for its pending task.
    [start_conversation] always overwrites it with a new
    [awaiting_company_name] task. [start_cancellation] always overwrites
    it: cleared with no schedule, a confirmation task with one, a choice
    task with more. [trigger_weekly_report] overwrites it only when the
    session has more than one schedule; with none or one it leaves the
    pending task as it was. *)
Theorem entry_points_pending_task (bot : NewsBot) (session_id : pystr) :
  let before := session_of bot session_id in
  current_task (session_of (start_conversation bot session_id).1 session_id)
  = Some (new_task awaiting_company_name)
  ∧ current_task (session_of (start_cancellation bot session_id).1 session_id)
    = match schedules before with
      | [] => None
      | [s] => Some (set_company_to_cancel (company_name s)
                       (new_task awaiting_cancellation_confirmation))
      | _ => Some (new_task awaiting_cancellation_choice)
      end
  ∧ current_task (session_of (trigger_weekly_report bot session_id).1 session_id)
    = match schedules before with
      | [] | [_] => current_task before
      | _ => Some (new_task awaiting_report_test_choice)
      end.
Proof.
  intros before. unfold before.
  destruct (get_session_state_spec bot session_id) as [H2 H1].
  unfold start_conversation, start_cancellation, trigger_weekly_report.
  destruct (_get_session_state bot session_id) as [bot0 ss] eqn:E.
  simpl in H1, H2. subst ss.
  split; [|split].
  - simpl. by rewrite session_of_put.
  - destruct (schedules (session_of bot session_id)) as [|s [|s' l]];
      simpl; by rewrite session_of_put.
  - destruct (schedules (session_of bot session_id)) as [|s [|s' l]]; simpl.
    + by rewrite H1.
    + unfold _send_weekly_report, session_of in *. simpl. by rewrite H1.
    + by rewrite session_of_put.
Qed.

(** C10, as stated, fails: with one schedule and a scheduling dialogue in
    progress, [trigger_weekly_report] starts the report and the pending
    task is still the one of the dialogue. *)
Lemma trigger_keeps_pending_task :
  current_task (session_of mid_dialogue (utf8 "s1"))
  = Some (new_task awaiting_company_name)
  ∧ (trigger_weekly_report mid_dialogue (utf8 "s1")).2
    = REPORT_TRIGGERED (utf8 "Acme")
  ∧ current_task
      (session_of (trigger_weekly_report mid_dialogue (utf8 "s1")).1 (utf8 "s1"))
    = Some (new_task awaiting_company_name).
Proof. cbv zeta. repeat apply conj; vm_compute; reflexivity. Qed.

(** *** Completing the scheduling dialogue *)

(** C4, as the code has it — Completing the [awaiting_schedule_time] step
    (no cancel keyword, a time that parses and that the scheduler accepts)
    appends the new Schedule at the end of the session's list and keeps
    every record that was there, one with the same company included: the
    list grows by one and can hold two records with the same company. *)
Theorem schedule_time_appends (py : Builtins) (lib : ScheduleLib)
    (env : Collaborators) (bot : NewsBot) (session_id : pystr)
    (session_state : SessionState) (task : Task)
    (company user_input time : pystr) :
  conversation_state bot !! session_id = Some session_state →
  current_task session_state = Some task →
  step task = awaiting_schedule_time →
  task_company_name task = Some company →
  existsb (fun keyword => str_in keyword user_input) cancel_keywords = false →
  parse_schedule_time py user_input = Some time →
  at_accepts lib time = true →
  let r := handle_message py lib env bot session_id user_input in
  r.2 = Ok (SCHEDULED time company)
  ∧ conversation_state r.1 !! session_id
    = Some {| schedules :=
                schedules session_state
                ++ [{| company_name := company; schedule_time := time |}];
              current_task := None |}
  ∧ scheduler r.1
    = scheduler bot
      ++ [daily_job lib env session_id company time;
          weekly_job lib env session_id company].
Proof.
  intros Hs Ht Hstep Hc Hkw Hparse Hat r. unfold r, handle_message.
  rewrite (get_existing_session _ _ _ Hs), Ht, Hstep, Hkw, Hparse.
  cbn [task_company_name set_task_schedule_time]. rewrite Hc.
  unfold _schedule_jobs. rewrite Hat. cbn.
  repeat split. by rewrite lookup_insert_eq.
Qed.

Lemma schedule_time_appends_witness :
  let r := handle_message ascii_builtins ref_schedule news_env asked_for_time
             (utf8 "s1") (utf8 "09:00") in
  r.2 = Ok (SCHEDULED (utf8 "09:00") (utf8 "Acme"))
  ∧ schedules <$> conversation_state r.1 !! utf8 "s1"
    = Some [{| company_name := utf8 "Acme"; schedule_time := utf8 "09:00" |}].
Proof.
  intros r.
  destruct (schedule_time_appends ascii_builtins ref_schedule news_env
              asked_for_time (utf8 "s1")
              {| schedules := [];
                 current_task :=
                   Some (set_step awaiting_schedule_time
                           (set_task_company_name (utf8 "Acme")
                              (new_task awaiting_company_name))) |}
              _ (utf8 "Acme") (utf8 "09:00") (utf8 "09:00")
              ltac:(vm_compute; reflexivity) eq_refl eq_refl eq_refl
              eq_refl eq_refl eq_refl)
    as (Hr & Hc & _).
  fold r in Hr, Hc. rewrite Hr, Hc. split; reflexivity.
Defined.

(** C4, as stated, fails: after two scheduling dialogues for Acme in
    session ["s1"] the list holds two records named Acme. *)
Lemma same_company_twice :
  schedules (session_of registered_twice (utf8 "s1"))
  = [ {| company_name := utf8 "Acme"; schedule_time := utf8 "09:00" |};
      {| company_name := utf8 "Acme"; schedule_time := utf8 "10:30" |} ].
Proof. vm_compute. reflexivity. Qed.

(** *** Registering jobs *)

Lemma jobs_tagged_app (s c : pystr) (k : JobKind) (l1 l2 : list Job) :
  jobs_tagged s c k (l1 ++ l2) = jobs_tagged s c k l1 ++ jobs_tagged s c k l2.
Proof. unfold jobs_tagged. apply List.filter_app. Qed.

Lemma jobs_tagged_pair (lib : ScheduleLib) (env : Collaborators)
    (s c t : pystr) (k : JobKind) :
  jobs_tagged s c k [daily_job lib env s c t; weekly_job lib env s c]
  = match k with
    | Daily => [daily_job lib env s c t]
    | Weekly => [weekly_job lib env s c]
    end.
Proof.
  unfold jobs_tagged. destruct k; simpl.
  - rewrite bool_decide_eq_true_2, bool_decide_eq_false_2; [done | |].
    + intros (_ & _ & H). discriminate.
    + unfold job_tags. simpl. set_solver.
  - rewrite bool_decide_eq_false_2, bool_decide_eq_true_2; [done | |].
    + unfold job_tags. simpl. set_solver.
    + intros (_ & _ & H). discriminate.
Qed.

(** C1, as the code has it — [_schedule_jobs] for (s, subj) at t1 and then
    at t2 (both accepted by the scheduler) appends a Daily and a Weekly job
    each time and replaces nothing: the jobs tagged (s, subj) are the ones
    there before, then the Daily job at t1 and the Daily job at t2, and
    likewise two more Weekly jobs. *)
Theorem reregistration_appends (lib : ScheduleLib) (env1 env2 : Collaborators)
    (bot : NewsBot) (s subj t1 t2 : pystr) :
  at_accepts lib t1 = true →
  at_accepts lib t2 = true →
  let r1 := _schedule_jobs lib env1 bot s subj t1 in
  let r2 := _schedule_jobs lib env2 r1.1 s subj t2 in
  r1.2 = Ok tt ∧ r2.2 = Ok tt
  ∧ scheduler r2.1
    = scheduler bot
      ++ [daily_job lib env1 s subj t1; weekly_job lib env1 s subj;
          daily_job lib env2 s subj t2; weekly_job lib env2 s subj]
  ∧ jobs_tagged s subj Daily (scheduler r2.1)
    = jobs_tagged s subj Daily (scheduler bot)
      ++ [daily_job lib env1 s subj t1; daily_job lib env2 s subj t2]
  ∧ jobs_tagged s subj Weekly (scheduler r2.1)
    = jobs_tagged s subj Weekly (scheduler bot)
      ++ [weekly_job lib env1 s subj; weekly_job lib env2 s subj].
Proof.
  intros H1 H2 r1 r2.
  assert (Hjobs : scheduler r2.1
                  = (scheduler bot
                     ++ [daily_job lib env1 s subj t1; weekly_job lib env1 s subj])
                    ++ [daily_job lib env2 s subj t2; weekly_job lib env2 s subj]).
  { unfold r2, r1, _schedule_jobs. by rewrite H1, H2. }
  split; [|split; [|split; [|split]]].
  - unfold r1, _schedule_jobs. by rewrite H1.
  - unfold r2, _schedule_jobs. by rewrite H2.
  - by rewrite Hjobs, <- app_assoc.
  - by rewrite Hjobs, !jobs_tagged_app, !jobs_tagged_pair, <- app_assoc.
  - by rewrite Hjobs, !jobs_tagged_app, !jobs_tagged_pair, <- app_assoc.
Qed.

Lemma reregistration_appends_witness :
  let r1 := _schedule_jobs ref_schedule news_env NewsBot_init
              (utf8 "s1") (utf8 "Acme") (utf8 "09:00") in
  let r2 := _schedule_jobs ref_schedule news_env r1.1
              (utf8 "s1") (utf8 "Acme") (utf8 "10:30") in
  at_time <$> jobs_tagged (utf8 "s1") (utf8 "Acme") Daily (scheduler r2.1)
  = [Some (utf8 "09:00"); Some (utf8 "10:30")].
Proof.
  intros r1 r2.
  destruct (reregistration_appends ref_schedule news_env news_env NewsBot_init
              (utf8 "s1") (utf8 "Acme") (utf8 "09:00") (utf8 "10:30")
              eq_refl eq_refl)
    as (_ & _ & _ & Hd & _).
  fold r1 r2 in Hd. rewrite Hd. reflexivity.
Defined.

(** C1, as stated, fails: registering Acme for ["s1"] at 09:00 and again at
    10:30 leaves two Daily and two Weekly jobs with these tags, the first
    Daily job still at 09:00. *)
Lemma reregistration_duplicates :
  let r1 := _schedule_jobs ref_schedule news_env NewsBot_init
              (utf8 "s1") (utf8 "Acme") (utf8 "09:00") in
  let r2 := _schedule_jobs ref_schedule news_env r1.1
              (utf8 "s1") (utf8 "Acme") (utf8 "10:30") in
  length (jobs_tagged (utf8 "s1") (utf8 "Acme") Daily (scheduler r2.1)) = 2%nat
  ∧ length (jobs_tagged (utf8 "s1") (utf8 "Acme") Weekly (scheduler r2.1)) = 2%nat
  ∧ at_time <$> jobs_tagged (utf8 "s1") (utf8 "Acme") Daily (scheduler r2.1)
    = [Some (utf8 "09:00"); Some (utf8 "10:30")].
Proof. cbv zeta. repeat apply conj; vm_compute; reflexivity. Qed.

(** *** Collaborator failures *)

Lemma summarizer_raises_iff (env : Collaborators) (company : pystr) (e : exn) :
  _fetch_and_summarize_latest_news env company = Raise e
  ↔ collaborator_raises env company e.
Proof.
  unfold _fetch_and_summarize_latest_news. split.
  - destruct (search_news env company (today_str env)) as [news|e'] eqn:Hs;
      simpl; [|intros [= ->]; by apply search_raises].
    destruct news as [|latest rest]; [done|].
    destruct (content_or_fetch env latest (default [] (a_link latest)))
      as [content|e'] eqn:Hc; simpl.
    + destruct content as [|c cs]; [done|].
      destruct (llm_run env _) as [summary|e''] eqn:Hl; simpl; [done|].
      intros [= ->]. by eapply llm_raises.
    + intros [= ->]. unfold content_or_fetch in Hc.
      destruct (a_content latest) as [[|c cs]|] eqn:Ha; try discriminate;
        eapply fetch_raises; eauto.
  - intros [Hs | latest rest Hs Ha Hf | latest rest content Hs Hc Hne Hl];
      rewrite Hs; simpl; [done | |].
    + unfold content_or_fetch. destruct Ha as [-> | ->]; by rewrite Hf.
    + rewrite Hc. simpl. destruct content as [|c cs]; [done|].
      by rewrite Hl.
Qed.

(** C2, as the code has it — The Article Summarizer catches nothing: when
    a call it makes (the news search, the content fetch, the language
    model) raises an error, [_fetch_and_summarize_latest_news] raises the
    same error, and so does the [awaiting_company_name] turn of
    [handle_message] that called it. *)
Theorem collaborator_errors_propagate (env : Collaborators) (company : pystr)
    (e : exn) :
  collaborator_raises env company e →
  _fetch_and_summarize_latest_news env company = Raise e
  ∧ ∀ py lib bot session_id session_state task user_input,
      conversation_state bot !! session_id = Some session_state →
      current_task session_state = Some task →
      step task = awaiting_company_name →
      str_strip py user_input = company →
      (handle_message py lib env bot session_id user_input).2 = Raise e.
Proof.
  intros H. apply summarizer_raises_iff in H. split; [done|].
  intros py lib bot session_id session_state task user_input Hs Ht Hstep Hc.
  unfold handle_message.
  by rewrite (get_existing_session _ _ _ Hs), Ht, Hstep, Hc, H.
Qed.

Lemma collaborator_errors_propagate_witness :
  _fetch_and_summarize_latest_news store_down_env (utf8 "Acme")
  = Raise (CollaboratorError 1).
Proof.
  apply (collaborator_errors_propagate store_down_env (utf8 "Acme")
           (CollaboratorError 1)).
  apply search_raises. reflexivity.
Defined.

(** C2, as stated, fails: with a news store that raises, the summarizer
    returns no sentinel; it raises, and the conversation turn raises. *)
Lemma store_down_raises :
  _fetch_and_summarize_latest_news store_down_env (utf8 "Acme")
  = Raise (CollaboratorError 1)
  ∧ (handle_message ascii_builtins ref_schedule store_down_env
       (start_conversation NewsBot_init (utf8 "s1")).1 (utf8 "s1") (utf8 "Acme")).2
    = Raise (CollaboratorError 1).
Proof. split; vm_compute; reflexivity. Qed.

(** When nothing raises, the sentinels are what the source returns for an
    empty search result and for an article without content. *)
Lemma summarizer_not_found (env : Collaborators) (company : pystr) :
  search_news env company (today_str env) = Ok [] →
  _fetch_and_summarize_latest_news env company = Ok (NOT_FOUND, false).
Proof. intros H. unfold _fetch_and_summarize_latest_news. by rewrite H. Qed.

Lemma summarizer_content_unavailable (env : Collaborators) (company : pystr)
    (latest : Article) (rest : list Article) :
  search_news env company (today_str env) = Ok (latest :: rest) →
  content_or_fetch env latest (default [] (a_link latest)) = Ok [] →
  _fetch_and_summarize_latest_news env company
  = Ok (CONTENT_UNAVAILABLE (default (utf8 "제목 없음") (a_title latest)), false).
Proof.
  intros Hs Hc. unfold _fetch_and_summarize_latest_news.
  rewrite Hs. simpl. by rewrite Hc.
Qed.

(** *** Scheduler ticks after a cancellation *)

Lemma foldl_run_job (bot : NewsBot) (l : list Job) :
  scheduler (foldl run_job bot l) = scheduler bot
  ∧ threads (foldl run_job bot l) = threads bot ++ map thread_of l.
Proof.
  revert bot. induction l as [|j l IH]; intros bot; simpl.
  - by rewrite app_nil_r.
  - destruct (IH (run_job bot j)) as [-> ->].
    unfold run_job, thread_of, _send_daily_summary, _send_weekly_report.
    destruct (job_kind j); simpl; by rewrite <- app_assoc.
Qed.

Lemma run_pending_threads (lib : ScheduleLib) (t : Z) (bot : NewsBot) :
  threads (run_pending lib t bot)
  = threads bot ++ map thread_of (due_jobs t (scheduler bot)).
Proof. unfold run_pending. simpl. apply foldl_run_job. Qed.

Lemma run_pending_scheduler (lib : ScheduleLib) (t : Z) (bot : NewsBot) :
  scheduler (run_pending lib t bot)
  = map (fun j => if should_run t j then reschedule lib t j else j)
        (scheduler bot).
Proof. reflexivity. Qed.

Lemma elem_of_insert_by_next_run (j x : Job) (l : list Job) :
  x ∈ insert_by_next_run j l ↔ x = j ∨ x ∈ l.
Proof.
  induction l as [|k l IH]; simpl.
  - rewrite list_elem_of_singleton, elem_of_nil. tauto.
  - destruct (next_run k <? next_run j).
    + rewrite !elem_of_cons, IH. tauto.
    + by rewrite elem_of_cons.
Qed.

Lemma elem_of_sorted_jobs (x : Job) (l : list Job) : x ∈ sorted_jobs l ↔ x ∈ l.
Proof.
  induction l as [|k l IH]; simpl; [done|].
  by rewrite elem_of_insert_by_next_run, IH, elem_of_cons.
Qed.

Lemma elem_of_due_jobs (x : Job) (t : Z) (l : list Job) :
  x ∈ due_jobs t l → x ∈ l.
Proof.
  unfold due_jobs. rewrite elem_of_sorted_jobs, !list_elem_of_In, filter_In.
  tauto.
Qed.

Section AfterCancel.
Context (lib : ScheduleLib) (s subj : pystr).

Lemma run_op_clean (bot : NewsBot) (op : RegistryOp) :
  no_job_for s subj bot → ¬ registers s subj op →
  no_job_for s subj (run_op lib bot op)
  ∧ ∃ started,
      threads (run_op lib bot op) = threads bot ++ started
      ∧ Forall (fun th => ¬ thread_for s subj th) started.
Proof using Type.
  intros Hclean Hop. destruct op as [env s' c' t' | tag | t]; cbn [run_op].
  - unfold _schedule_jobs. destruct (at_accepts lib t'); simpl.
    + split; [|exists []; by rewrite app_nil_r].
      intros j Hj [Hjs Hjc]. apply elem_of_app in Hj as [Hj | Hj].
      * by apply (Hclean j).
      * apply Hop. simpl.
        apply elem_of_cons in Hj as [-> | Hj]; [done|].
        apply elem_of_cons in Hj as [-> | Hj]; [done|].
        by apply elem_of_nil in Hj.
    + split; [done | exists []; by rewrite app_nil_r].
  - split; [|exists []; by rewrite app_nil_r].
    intros j Hj. apply (Hclean j). destruct tag as [tag|]; simpl in Hj.
    + by apply elem_of_clear in Hj as [Hj _].
    + by apply elem_of_nil in Hj.
  - split.
    + intros j. rewrite run_pending_scheduler, list_elem_of_fmap.
      intros [k [-> Hk]]. specialize (Hclean k Hk).
      by destruct (should_run t k).
    + exists (map thread_of (due_jobs t (scheduler bot))).
      split; [exact (run_pending_threads lib t bot)|].
      apply Forall_forall. intros th Hth.
      apply list_elem_of_fmap in Hth as [k [-> Hk]].
      apply elem_of_due_jobs in Hk. specialize (Hclean k Hk).
      unfold thread_of, job_for in *. by destruct (job_kind k).
Qed.

Lemma run_ops_clean (ops : list RegistryOp) (bot : NewsBot) :
  no_job_for s subj bot → Forall (fun op => ¬ registers s subj op) ops →
  ∃ started,
    threads (run_ops lib ops bot) = threads bot ++ started
    ∧ Forall (fun th => ¬ thread_for s subj th) started.
Proof using Type.
  revert bot. induction ops as [|op ops IH]; intros bot Hclean Hops; simpl.
  - exists []. by rewrite app_nil_r.
  - apply Forall_cons in Hops as [Hop Hops].
    destruct (run_op_clean bot op Hclean Hop) as (Hclean' & st1 & Ht1 & Hf1).
    destruct (IH _ Hclean' Hops) as (st2 & Ht2 & Hf2).
    exists (st1 ++ st2). split.
    + unfold run_ops in *. by rewrite Ht2, Ht1, app_assoc.
    + by apply Forall_app.
Qed.
End AfterCancel.

Lemma clear_no_such_tag (tag : pystr) (jobs : list Job) :
  (∀ j, j ∈ jobs → tag ∉ job_tags j) → clear (Some tag) jobs = jobs.
Proof.
  intros H. unfold clear. induction jobs as [|j jobs IH]; simpl; [done|].
  rewrite bool_decide_eq_false_2 by (apply H; set_solver). simpl.
  f_equal. apply IH. intros k Hk. apply H. set_solver.
Qed.

(** C5, as the code has it — After the confirmed cancellation of subj in
    session s, and as long as no job is registered again for (s, subj), no
    scheduler tick at any time starts a handler bound to (s, subj): the
    turn removes the Daily and the Weekly job tagged (s, subj) and replies
    without an error. The registry is left as it was when no job carries
    the tag subj. *)
Theorem cancellation_completeness (py : Builtins) (lib : ScheduleLib)
    (env : Collaborators) (bot : NewsBot) (s : pystr)
    (session_state : SessionState) (task : Task) (subj user_input : pystr) :
  conversation_state bot !! s = Some session_state →
  current_task session_state = Some task →
  step task = awaiting_cancellation_confirmation →
  company_to_cancel task = Some subj →
  list_in (str_lower py user_input) affirmatives = true →
  let r := handle_message py lib env bot s user_input in
  r.2 = Ok (CANCELLED (Some subj))
  ∧ scheduler r.1 = clear (Some subj) (scheduler bot)
  ∧ jobs_tagged s subj Daily (scheduler r.1) = []
  ∧ jobs_tagged s subj Weekly (scheduler r.1) = []
  ∧ (∀ ops, Forall (fun op => ¬ registers s subj op) ops →
       ∃ started,
         threads (run_ops lib ops r.1) = threads r.1 ++ started
         ∧ Forall (fun th => ¬ thread_for s subj th) started)
  ∧ ((∀ j, j ∈ scheduler bot → subj ∉ job_tags j) →
       scheduler r.1 = scheduler bot).
Proof.
  intros Hs Ht Hstep Htarget Haff r.
  assert (Hr : r = (put_session s
                      (set_current_task None
                         (set_schedules
                            (List.filter
                               (fun x => negb (bool_decide
                                  (Some (company_name x) = Some subj)))
                               (schedules session_state))
                            session_state))
                      (set_scheduler (clear (Some subj) (scheduler bot)) bot),
                    Ok (CANCELLED (Some subj)))).
  { unfold r.
    by rewrite (confirm_cancellation _ _ _ _ _ _ _ _ Hs Ht Hstep Haff), Htarget. }
  assert (Hjobs : scheduler r.1 = clear (Some subj) (scheduler bot))
    by (by rewrite Hr).
  assert (Hgone : ∀ k, jobs_tagged s subj k (scheduler r.1) = []).
  { intros k. unfold jobs_tagged. apply filter_none. intros j Hj.
    rewrite Hjobs in Hj. apply elem_of_clear in Hj as [_ HX].
    apply bool_decide_eq_false. tauto. }
  split; [by rewrite Hr|]. split; [done|]. split; [apply Hgone|].
  split; [apply Hgone|]. split.
  - intros ops Hops. apply run_ops_clean; [|done].
    intros j Hj [_ Hc]. rewrite Hjobs in Hj.
    apply elem_of_clear in Hj as [_ HX]. apply HX.
    unfold job_tags. rewrite Hc. set_solver.
  - intros Hnone. rewrite Hjobs. by apply clear_no_such_tag.
Qed.

Lemma cancellation_completeness_witness :
  let r := handle_message ascii_builtins ref_schedule news_env confirming
             (utf8 "s1") (utf8 "네") in
  length (jobs_tagged (utf8 "s1") (utf8 "Acme") Daily (scheduler confirming))
  = 1%nat
  ∧ jobs_tagged (utf8 "s1") (utf8 "Acme") Daily (scheduler r.1) = []
  ∧ jobs_tagged (utf8 "s1") (utf8 "Acme") Weekly (scheduler r.1) = []
  ∧ threads
      (run_ops ref_schedule
         [op_run_pending 40000;
          op_schedule news_env (utf8 "s3") (utf8 "Beta") (utf8 "08:00");
          op_run_pending 700000]
         r.1)
    = [daily_summary_thread (utf8 "s3") (utf8 "Beta");
       weekly_report_thread (utf8 "s3") (utf8 "Beta")].
Proof.
  intros r.
  destruct (cancellation_completeness ascii_builtins ref_schedule news_env
              confirming (utf8 "s1")
              {| schedules :=
                   [ {| company_name := utf8 "Acme";
                        schedule_time := utf8 "09:00" |} ];
                 current_task :=
                   Some (set_company_to_cancel (utf8 "Acme")
                           (new_task awaiting_cancellation_confirmation)) |}
              _ (utf8 "Acme") (utf8 "네")
              ltac:(vm_compute; reflexivity) eq_refl eq_refl eq_refl
              ltac:(vm_compute; reflexivity))
    as (_ & _ & Hd & Hw & _).
  fold r in Hd, Hw. rewrite Hd, Hw.
  repeat split; vm_compute; reflexivity.
Defined.

(** C5, as stated, fails: session ["s1"] has no job left for Acme, yet its
    confirmed cancellation of Acme is no no-op on the registry: the Daily
    and the Weekly job of session ["s3"] for Acme are removed. *)
Lemma cancel_without_jobs_not_noop :
  let r := handle_message ascii_builtins ref_schedule news_env
             newcomer_confirming (utf8 "s1") (utf8 "네") in
  jobs_tagged (utf8 "s1") (utf8 "Acme") Daily (scheduler newcomer_confirming) = []
  ∧ jobs_tagged (utf8 "s1") (utf8 "Acme") Weekly (scheduler newcomer_confirming)
    = []
  ∧ map job_session (scheduler newcomer_confirming) = [utf8 "s3"; utf8 "s3"]
  ∧ r.2 = Ok (CANCELLED (Some (utf8 "Acme")))
  ∧ scheduler r.1 = [].
Proof. cbv zeta. repeat apply conj; vm_compute; reflexivity. Qed.

(** *** Further properties of the dialogue *)

(** When the scheduler rejects the parsed time, the
    [awaiting_schedule_time] turn raises [ScheduleValueError] after the
    Schedule record has been appended: the record stays in the list
    without jobs, and the task is still pending. *)
Lemma rejected_time_keeps_record (py : Builtins) (lib : ScheduleLib)
    (env : Collaborators) (bot : NewsBot) (session_id : pystr)
    (session_state : SessionState) (task : Task)
    (company user_input time : pystr) :
  conversation_state bot !! session_id = Some session_state →
  current_task session_state = Some task →
  step task = awaiting_schedule_time →
  task_company_name task = Some company →
  existsb (fun keyword => str_in keyword user_input) cancel_keywords = false →
  parse_schedule_time py user_input = Some time →
  at_accepts lib time = false →
  let r := handle_message py lib env bot session_id user_input in
  r.2 = Raise ScheduleValueError
  ∧ conversation_state r.1 !! session_id
    = Some {| schedules :=
                schedules session_state
                ++ [{| company_name := company; schedule_time := time |}];
              current_task := Some (set_task_schedule_time time task) |}
  ∧ scheduler r.1 = scheduler bot.
Proof.
  intros Hs Ht Hstep Hc Hkw Hparse Hat r. unfold r, handle_message.
  rewrite (get_existing_session _ _ _ Hs), Ht, Hstep, Hkw, Hparse.
  cbn [task_company_name set_task_schedule_time]. rewrite Hc.
  unfold _schedule_jobs. rewrite Hat. cbn.
  repeat split. by rewrite lookup_insert_eq.
Qed.

Lemma rejected_time_keeps_record_witness :
  let r := handle_message ascii_builtins ref_schedule news_env asked_for_time
             (utf8 "s1") (utf8 "9999") in
  r.2 = Raise ScheduleValueError
  ∧ schedules <$> conversation_state r.1 !! utf8 "s1"
    = Some [{| company_name := utf8 "Acme"; schedule_time := utf8 "99:99" |}]
  ∧ scheduler r.1 = [].
Proof.
  intros r.
  destruct (rejected_time_keeps_record ascii_builtins ref_schedule news_env
              asked_for_time (utf8 "s1")
              {| schedules := [];
                 current_task :=
                   Some (set_step awaiting_schedule_time
                           (set_task_company_name (utf8 "Acme")
                              (new_task awaiting_company_name))) |}
              _ (utf8 "Acme") (utf8 "9999") (utf8 "99:99")
              ltac:(vm_compute; reflexivity) eq_refl eq_refl eq_refl
              eq_refl eq_refl eq_refl)
    as (Hr & Hc & Hj).
  fold r in Hr, Hc, Hj. rewrite Hr, Hc, Hj. repeat split.
Defined.

(** The scenario of the specification, end to end: the dialogue registers
    Acme at 09:00 for ["s1"], the listing shows it, and the confirmed
    cancellation leaves no job and no schedule. *)
Example end_to_end_scenario :
  let turn := handle_message ascii_builtins ref_schedule news_env in
  let s1 := utf8 "s1" in
  let started := start_conversation NewsBot_init s1 in
  let named := turn started.1 s1 (utf8 "Acme") in
  let timed := turn named.1 s1 (utf8 "09:00") in
  let listed := show_schedules timed.1 s1 in
  let asked := start_cancellation listed.1 s1 in
  let confirmed := turn asked.1 s1 (utf8 "네") in
  started.2 = ASK_COMPANY
  ∧ named.2
    = Ok (ASK_TIME (utf8 "Acme") (utf8 "summary" ++ NL ++ utf8 "출처: http://n/1"))
  ∧ timed.2 = Ok (SCHEDULED (utf8 "09:00") (utf8 "Acme"))
  ∧ map (fun j => (job_kind j, at_time j)) (scheduler timed.1)
    = [(Daily, Some (utf8 "09:00")); (Weekly, None)]
  ∧ listed.2
    = utf8 "현재 등록된 알림 목록입니다:" ++ NL
      ++ utf8 " - 🗓️ 일일 뉴스: 'Acme' (매일 09:00)" ++ NL
      ++ utf8 " - 📊 주간 보고서: 'Acme' (매주 1회)"
  ∧ asked.2 = CONFIRM_CANCEL (utf8 "Acme")
  ∧ confirmed.2 = Ok (CANCELLED (Some (utf8 "Acme")))
  ∧ scheduler confirmed.1 = []
  ∧ session_of confirmed.1 s1 = fresh_session.
Proof. cbv zeta. repeat apply conj; vm_compute; reflexivity. Qed.

(** *** What a turn can change *)

Ltac turn_simpl :=
  cbn [fst snd scheduler conversation_state threads console put_session
       set_scheduler set_current_task set_schedules schedules current_task
       _send_weekly_report default id] in *.

Lemma turn_effect (py : Builtins) (lib : ScheduleLib)
    (env : Collaborators) (bot : NewsBot) (session_id user_input : pystr) :
  let r := handle_message py lib env bot session_id user_input in
  (∀ s, s ≠ session_id →
     conversation_state r.1 !! s = conversation_state bot !! s)
  ∧ is_Some (conversation_state r.1 !! session_id)
  ∧ TurnEffect lib env session_id
      (schedules (session_of bot session_id)) (scheduler bot)
      (schedules (session_of r.1 session_id)) (scheduler r.1).
Proof.
  intros r.
  unfold r, handle_message, _get_session_state, _schedule_jobs, session_of.
  destruct (conversation_state bot !! session_id) as [ss|] eqn:Hs.
  - repeat case_match; turn_simpl; simplify_eq.
    all: rewrite ?lookup_insert_eq, ?Hs; turn_simpl; rewrite ?lookup_insert_eq;
      turn_simpl.
    all: split; [intros s0 Hne; by rewrite ?lookup_insert_ne by done|].
    all: split; [done|].
    all: try apply effect_none.
    all: try (by apply effect_registered).
    all: try (by apply effect_rejected).
    all: try apply effect_cancelled.
  - simpl. rewrite lookup_insert_eq. simpl.
    split; [intros s0 Hne; by rewrite lookup_insert_ne by done|].
    split; [done|]. apply effect_none.
Qed.

Lemma session_of_other (bot bot' : NewsBot) (s : pystr) :
  conversation_state bot' !! s = conversation_state bot !! s →
  session_of bot' s = session_of bot s.
Proof. intros H. unfold session_of. by rewrite H. Qed.

Lemma session_of_get (bot : NewsBot) (s s' : pystr) :
  session_of (_get_session_state bot s).1 s' = session_of bot s'.
Proof.
  unfold _get_session_state, session_of.
  destruct (conversation_state bot !! s) as [ss|] eqn:E; simpl; [done|].
  rewrite lookup_insert. case_decide; [by subst; rewrite E | done].
Qed.

Lemma session_of_put_same_schedules (bot : NewsBot) (s s' : pystr)
    (ss : SessionState) :
  schedules ss = schedules (session_of bot s) →
  schedules (session_of (put_session s ss bot) s')
  = schedules (session_of bot s').
Proof.
  intros H. unfold session_of at 1. rewrite lookup_put_session.
  case_decide; [by subst | done].
Qed.

Lemma entry_points_frame (bot : NewsBot) (session_id : pystr) :
  let after :=
    [ (start_conversation bot session_id).1;
      (start_cancellation bot session_id).1;
      (show_schedules bot session_id).1;
      (trigger_weekly_report bot session_id).1 ] in
  ∀ bot', bot' ∈ after →
    scheduler bot' = scheduler bot
    ∧ ∀ s, schedules (session_of bot' s) = schedules (session_of bot s).
Proof.
  intros after bot' Hin.
  pose proof (session_of_get bot session_id) as Hget.
  assert (Hj : scheduler (_get_session_state bot session_id).1 = scheduler bot).
  { unfold _get_session_state. by destruct (conversation_state bot !! session_id). }
  destruct (get_session_state_spec bot session_id) as [H2 _].
  unfold after, start_conversation, start_cancellation, show_schedules,
    trigger_weekly_report in Hin.
  destruct (_get_session_state bot session_id) as [bot0 ss] eqn:E.
  simpl in Hget, Hj, H2. subst ss.
  assert (Hput : ∀ t s,
            schedules (session_of
                         (put_session session_id
                            (set_current_task t (session_of bot session_id))
                            bot0) s)
            = schedules (session_of bot s)).
  { intros t s. rewrite session_of_put_same_schedules; [by rewrite Hget|].
    by rewrite Hget. }
  repeat (apply elem_of_cons in Hin as [-> | Hin]);
    [| | | | by apply elem_of_nil in Hin].
  - split; [done | apply Hput].
  - destruct (schedules (session_of bot session_id)) as [|x [|y l]] eqn:El;
      (split; [done | apply Hput]).
  - destruct (schedules (session_of bot session_id)) as [|x [|y l]] eqn:El;
      (split; [done | intros s; by rewrite Hget]).
  - destruct (schedules (session_of bot session_id)) as [|x [|y l]] eqn:El;
      simpl.
    + split; [done | intros s; by rewrite Hget].
    + split; [done | intros s]. rewrite <- Hget. done.
    + split; [done | apply Hput].
Qed.


(** The four entry points never touch the scheduler's jobs or any
    session's schedule list; they only set the pending task (and
    [trigger_weekly_report] may start a report thread). *)
Theorem entry_points_keep_registry (bot : NewsBot) (session_id : pystr) :
  same_registry bot (start_conversation bot session_id).1
  ∧ same_registry bot (start_cancellation bot session_id).1
  ∧ same_registry bot (show_schedules bot session_id).1
  ∧ same_registry bot (trigger_weekly_report bot session_id).1.
Proof.
  pose proof (entry_points_frame bot session_id) as Hframe.
  cbv zeta in Hframe.
  split; [|split; [|split]]; apply Hframe;
    repeat first [ by apply list_elem_of_here | apply list_elem_of_further ].
Qed.

(** *** States the bot can reach *)

Lemma foldl_run_job_sessions (bot : NewsBot) (l : list Job) :
  conversation_state (foldl run_job bot l) = conversation_state bot.
Proof.
  revert bot. induction l as [|j l IH]; intros bot; simpl; [done|].
  rewrite IH. unfold run_job. by destruct (job_kind j).
Qed.

Lemma run_pending_sessions (lib : ScheduleLib) (t : Z) (bot : NewsBot) :
  conversation_state (run_pending lib t bot) = conversation_state bot.
Proof. unfold run_pending. simpl. apply foldl_run_job_sessions. Qed.

Lemma tasks_ready_put (bot : NewsBot) (s : pystr) (ss : SessionState) :
  tasks_ready bot →
  (∀ t, current_task ss = Some t → task_ready t) →
  tasks_ready (put_session s ss bot).
Proof.
  intros Hb Hss s' ss' t Hl Ht. rewrite lookup_put_session in Hl.
  case_decide; simplify_eq; eauto.
Qed.

Lemma tasks_ready_sessions (bot bot' : NewsBot) :
  conversation_state bot' = conversation_state bot →
  tasks_ready bot → tasks_ready bot'.
Proof. intros H Hb s ss t Hl. rewrite H in Hl. eauto. Qed.

Lemma tasks_ready_get (bot : NewsBot) (s : pystr) :
  tasks_ready bot →
  tasks_ready (_get_session_state bot s).1
  ∧ ∀ t, current_task (_get_session_state bot s).2 = Some t → task_ready t.
Proof.
  intros Hb. unfold _get_session_state.
  destruct (conversation_state bot !! s) as [ss|] eqn:E; simpl.
  - split; [done | eauto].
  - split; [|done]. by apply tasks_ready_put.
Qed.

Ltac ready_tac :=
  repeat first
    [ apply tasks_ready_put
    | assumption
    | progress (intros; simplify_eq)
    | done ].

Lemma handle_message_ready (py : Builtins) (lib : ScheduleLib)
    (env : Collaborators) (bot : NewsBot) (session_id user_input : pystr) :
  tasks_ready bot →
  tasks_ready (handle_message py lib env bot session_id user_input).1.
Proof.
  intros Hb. destruct (tasks_ready_get bot session_id Hb) as [Hb0 Ht0].
  unfold handle_message, _schedule_jobs.
  destruct (_get_session_state bot session_id) as [bot0 ss].
  cbn [fst snd] in Hb0, Ht0.
  repeat case_match; cbn [fst snd]; simplify_eq; try done.
  all: try (specialize (Ht0 _ eq_refl); unfold task_ready in Ht0).
  all: unfold tasks_ready; turn_simpl; intros s' ss' t' Hl Ht'.
  all: rewrite ?insert_insert_eq in Hl; rewrite lookup_insert in Hl.
  all: case_decide; [|by eapply Hb0]; simplify_eq; turn_simpl; simplify_eq.
  all: unfold task_ready;
    cbn [step set_step set_task_company_name set_task_schedule_time
         set_company_to_cancel task_company_name company_to_cancel];
    try done.
  all: match goal with
       | H : step ?t = _ |- _ => rewrite H in *; cbn in *; try done
       end.
Qed.

Lemma run_call_ready (py : Builtins) (lib : ScheduleLib) (bot : NewsBot)
    (c : Call) :
  tasks_ready bot → tasks_ready (run_call py lib bot c).
Proof.
  intros Hb. destruct c as [s | s | s | s | env s text | t]; cbn [run_call].
  - destruct (tasks_ready_get bot s Hb) as [Hb0 _].
    unfold start_conversation. destruct (_get_session_state bot s).
    apply tasks_ready_put; [done|]. intros t Ht; cbn in Ht; simplify_eq; by unfold task_ready; cbn.
  - destruct (tasks_ready_get bot s Hb) as [Hb0 _].
    unfold start_cancellation. destruct (_get_session_state bot s) as [b ss].
    destruct (schedules ss) as [|x [|y l]]; cbn [fst];
      (apply tasks_ready_put; [done|]); intros t Ht; cbn in Ht; simplify_eq; by unfold task_ready; cbn.
  - destruct (tasks_ready_get bot s Hb) as [Hb0 _].
    unfold show_schedules. destruct (_get_session_state bot s) as [b ss].
    by destruct (schedules ss).
  - destruct (tasks_ready_get bot s Hb) as [Hb0 _].
    unfold trigger_weekly_report.
    destruct (_get_session_state bot s) as [b ss].
    destruct (schedules ss) as [|x [|y l]]; cbn [fst]; [done | done |].
    apply tasks_ready_put; [done|]. intros t Ht; cbn in Ht; simplify_eq; by unfold task_ready; cbn.
  - by apply handle_message_ready.
  - eapply tasks_ready_sessions; [apply run_pending_sessions | done].
Qed.

Lemma reachable_ready (py : Builtins) (lib : ScheduleLib) (calls : list Call) :
  tasks_ready (run_calls py lib calls NewsBot_init).
Proof.
  unfold run_calls.
  assert (H0 : tasks_ready NewsBot_init) by (intros s ss t Hl; done).
  revert H0. generalize NewsBot_init.
  induction calls as [|c calls IH]; intros bot Hb; simpl; [done|].
  apply IH. by apply run_call_ready.
Qed.

Lemma turn_errors (py : Builtins) (lib : ScheduleLib) (env : Collaborators)
    (bot : NewsBot) (session_id user_input : pystr) (e : exn) :
  tasks_ready bot →
  (handle_message py lib env bot session_id user_input).2 = Raise e →
  e = ScheduleValueError
  ∨ collaborator_raises env (str_strip py user_input) e.
Proof.
  intros Hb. destruct (tasks_ready_get bot session_id Hb) as [_ Ht0].
  unfold handle_message, _schedule_jobs.
  destruct (_get_session_state bot session_id) as [bot0 ss].
  cbn [fst snd] in Ht0.
  repeat case_match; cbn [fst snd]; intros He; simplify_eq.
  - right. by apply summarizer_raises_iff.
  - by left.
  - specialize (Ht0 _ eq_refl). unfold task_ready in Ht0.
    match goal with H : step ?t = _ |- _ => rewrite H in Ht0 end.
    match goal with
    | H : task_company_name (set_task_schedule_time _ _) = None |- _ =>
        cbn in H; rewrite H in Ht0
    end.
    by destruct Ht0.
Qed.

(** In every state the bot reaches from a new one (by its public methods
    and scheduler ticks, turns that raised included), [handle_message]
    lets only two kinds of exception escape: one that a collaborator raised
    while the company name was being looked up, and the scheduler's
    [ScheduleValueError]. The task fields it reads are always set, so no
    [KeyError] escapes. *)
Theorem reachable_turn_errors (py : Builtins) (lib : ScheduleLib)
    (calls : list Call) (env : Collaborators) (session_id user_input : pystr) :
  match (handle_message py lib env (run_calls py lib calls NewsBot_init)
           session_id user_input).2 with
  | Ok _ => True
  | Raise e =>
      e = ScheduleValueError
      ∨ collaborator_raises env (str_strip py user_input) e
  end.
Proof.
  destruct (handle_message _ _ _ _ _ _).2 as [reply|e] eqn:E; [done|].
  eapply turn_errors; [apply reachable_ready | exact E].
Qed.

Lemma frame_jobs_have_schedules (bot bot' : NewsBot) :
  scheduler bot' = scheduler bot →
  (∀ s, schedules (session_of bot' s) = schedules (session_of bot s)) →
  jobs_have_schedules bot → jobs_have_schedules bot'.
Proof.
  intros Hj Hl Hb j Hin. rewrite Hj in Hin. rewrite Hl. by apply Hb.
Qed.

Lemma reschedule_of_schedule (lib : ScheduleLib) (t : Z) (j : Job)
    (sch : Schedule) :
  job_of_schedule j sch →
  job_of_schedule (if should_run t j then reschedule lib t j else j) sch.
Proof. by destruct (should_run t j). Qed.

Lemma turn_jobs_have_schedules (py : Builtins) (lib : ScheduleLib)
    (env : Collaborators) (bot : NewsBot) (session_id user_input : pystr) :
  jobs_have_schedules bot →
  jobs_have_schedules (handle_message py lib env bot session_id user_input).1.
Proof.
  intros Hb.
  destruct (turn_effect py lib env bot session_id user_input)
    as (Hothers & _ & Heffect).
  set (bot' := (handle_message py lib env bot session_id user_input).1) in *.
  assert (Hother : ∀ s, s ≠ session_id → session_of bot' s = session_of bot s).
  { intros s Hne. by apply session_of_other, Hothers. }
  remember (schedules (session_of bot session_id)) as l0 eqn:El0.
  remember (schedules (session_of bot' session_id)) as l1 eqn:El1.
  remember (scheduler bot) as jobs0 eqn:Ej0.
  remember (scheduler bot') as jobs1 eqn:Ej1.
  assert (Hold : ∀ j, j ∈ jobs0 →
            (∀ sch, sch ∈ l0 → sch ∈ l1) →
            ∃ sch, sch ∈ schedules (session_of bot' (job_session j))
                   ∧ job_of_schedule j sch).
  { intros j Hj Hsub. subst jobs0. destruct (Hb j Hj) as (sch & Hsch & Hof).
    exists sch. split; [|done].
    destruct (decide (job_session j = session_id)) as [Heq | Hne].
    - rewrite Heq in *. rewrite <- El1. apply Hsub. by rewrite El0.
    - by rewrite Hother. }
  intros j Hj. rewrite <- Ej1 in Hj.
  destruct Heffect as [| company time Hat | company time Hat | target].
  - by apply Hold.
  - apply elem_of_app in Hj as [Hj | Hj].
    + apply Hold; [done|]. intros sch Hsch. apply elem_of_app. by left.
    + exists {| company_name := company; schedule_time := time |}.
      assert (Hs : job_session j = session_id ∧ job_company j = company
                   ∧ (job_kind j = Daily → at_time j = Some time)).
      { apply elem_of_cons in Hj as [-> | Hj]; [done|].
        apply elem_of_cons in Hj as [-> | Hj]; [done|].
        by apply elem_of_nil in Hj. }
      destruct Hs as (Hs & Hc & Ht). rewrite Hs, <- El1. split.
      * apply elem_of_app. right. by apply list_elem_of_singleton.
      * by split.
  - apply Hold; [done|]. intros sch Hsch. apply elem_of_app. by left.
  - destruct target as [X|]; [|by apply elem_of_nil in Hj].
    apply elem_of_clear in Hj as [Hj HX]. subst jobs0.
    destruct (Hb j Hj) as (sch & Hsch & Hof). exists sch. split; [|done].
    destruct (decide (job_session j = session_id)) as [Heq | Hne].
    + rewrite Heq in *. rewrite <- El1, list_elem_of_In. apply filter_In.
      rewrite <- list_elem_of_In, El0. split; [done|].
      apply negb_true_iff, bool_decide_eq_false. intros [= HeqX].
      apply HX. destruct Hof as [Hc _]. unfold job_tags.
      rewrite <- Hc, HeqX. set_solver.
    + by rewrite Hother.
Qed.

Lemma run_call_jobs_have_schedules (py : Builtins) (lib : ScheduleLib)
    (bot : NewsBot) (c : Call) :
  jobs_have_schedules bot → jobs_have_schedules (run_call py lib bot c).
Proof.
  intros Hb.
  assert (Hentry : ∀ s bot',
            bot' ∈ [ (start_conversation bot s).1;
                     (start_cancellation bot s).1;
                     (show_schedules bot s).1;
                     (trigger_weekly_report bot s).1 ] →
            jobs_have_schedules bot').
  { intros s bot' Hin. destruct (entry_points_frame bot s bot' Hin) as [Hj Hl].
    by eapply frame_jobs_have_schedules. }
  destruct c as [s | s | s | s | env s text | t]; cbn [run_call].
  - apply (Hentry s). set_solver.
  - apply (Hentry s). set_solver.
  - apply (Hentry s). set_solver.
  - apply (Hentry s). set_solver.
  - by apply turn_jobs_have_schedules.
  - intros j Hj. rewrite run_pending_scheduler in Hj.
    apply list_elem_of_fmap in Hj as [k [-> Hk]].
    destruct (Hb k Hk) as (sch & Hsch & Hof). exists sch. split.
    + unfold session_of. rewrite run_pending_sessions.
      by destruct (should_run t k).
    + by apply reschedule_of_schedule.
Qed.

(** In every state the bot reaches from a new one, each job in the
    scheduler belongs to a Schedule that is still in the list of the
    job's session: same company, and for the Daily job the same time. No
    job outlives its Schedule. *)
Theorem reachable_jobs_have_schedules (py : Builtins) (lib : ScheduleLib)
    (calls : list Call) :
  jobs_have_schedules (run_calls py lib calls NewsBot_init).
Proof.
  unfold run_calls.
  assert (H0 : jobs_have_schedules NewsBot_init).
  { intros j Hj. by apply elem_of_nil in Hj. }
  revert H0. generalize NewsBot_init.
  induction calls as [|c calls IH]; intros bot Hb; simpl; [done|].
  apply IH. by apply run_call_jobs_have_schedules.
Qed.

(** *** Scheduler ticks *)

Lemma insert_by_next_run_perm (j : Job) (l : list Job) :
  insert_by_next_run j l ≡ₚ j :: l.
Proof.
  induction l as [|k l IH]; simpl; [done|].
  destruct (next_run k <? next_run j); [|done].
  rewrite IH. apply Permutation_swap.
Qed.

Lemma sorted_jobs_perm (l : list Job) : sorted_jobs l ≡ₚ l.
Proof.
  induction l as [|k l IH]; simpl; [done|].
  by rewrite insert_by_next_run_perm, IH.
Qed.

Lemma insert_by_next_run_sorted (j : Job) (l : list Job) :
  StronglySorted by_next_run l →
  StronglySorted by_next_run (insert_by_next_run j l).
Proof.
  induction 1 as [|k l Hl IH Hk]; simpl.
  - repeat constructor.
  - destruct (next_run k <? next_run j) eqn:E.
    + apply Z.ltb_lt in E. constructor; [done|].
      rewrite insert_by_next_run_perm.
      constructor; [unfold by_next_run; lia | done].
    + apply Z.ltb_ge in E. constructor; [by constructor|].
      constructor; [unfold by_next_run; lia|].
      eapply Forall_impl; [exact Hk|]. unfold by_next_run. intros x Hx. lia.
Qed.

(** Stability: among the jobs due at one and the same time the order of
    the list is kept. *)
Lemma insert_by_next_run_stable (v : Z) (j : Job) (l : list Job) :
  List.filter (fun k => next_run k =? v) (insert_by_next_run j l)
  = List.filter (fun k => next_run k =? v) (j :: l).
Proof.
  induction l as [|k l IH]; [done|].
  cbn [insert_by_next_run].
  destruct (next_run k <? next_run j) eqn:E; [|done].
  apply Z.ltb_lt in E.
  change (List.filter ?f (k :: ?m))
    with (if f k then k :: List.filter f m else List.filter f m).
  cbv beta. rewrite IH. cbn [List.filter].
  destruct (Z.eqb_spec (next_run k) v) as [Hk|Hk];
    destruct (Z.eqb_spec (next_run j) v) as [Hj|Hj]; try done; lia.
Qed.

Lemma sorted_jobs_stable (v : Z) (l : list Job) :
  List.filter (fun k => next_run k =? v) (sorted_jobs l)
  = List.filter (fun k => next_run k =? v) l.
Proof.
  induction l as [|k l IH]; [done|].
  change (sorted_jobs (k :: l)) with (insert_by_next_run k (sorted_jobs l)).
  rewrite insert_by_next_run_stable. cbn [List.filter]. by rewrite IH.
Qed.

(** Two sorted lists with the same jobs that agree on the order of the
    jobs due at any one time are the same list. *)
Lemma stable_sort_unique (l1 l2 : list Job) :
  StronglySorted by_next_run l1 →
  StronglySorted by_next_run l2 →
  l1 ≡ₚ l2 →
  (∀ v, List.filter (fun k => next_run k =? v) l1
        = List.filter (fun k => next_run k =? v) l2) →
  l1 = l2.
Proof.
  intros H1. revert l2.
  induction H1 as [|j l1 Hl1 IH Hj]; intros l2 H2 Hperm Hst.
  - by apply Permutation_nil in Hperm.
  - destruct H2 as [|k l2 Hl2 Hk].
    { symmetry in Hperm. by apply Permutation_nil in Hperm. }
    assert (Hjk : next_run j = next_run k).
    { assert (Hj2 : j ∈ k :: l2) by (rewrite <- Hperm; left).
      assert (Hk1 : k ∈ j :: l1) by (rewrite Hperm; left).
      rewrite Forall_forall in Hj, Hk. unfold by_next_run in Hj, Hk.
      apply elem_of_cons in Hj2 as [->|Hj2]; [done|].
      apply elem_of_cons in Hk1 as [->|Hk1]; [done|].
      specialize (Hj _ Hk1). specialize (Hk _ Hj2). lia. }
    pose proof (Hst (next_run j)) as Hhead. cbn [List.filter] in Hhead.
    rewrite Z.eqb_refl in Hhead.
    rewrite <- Hjk, Z.eqb_refl in Hhead. injection Hhead as -> _.
    f_equal. apply IH; [done | by apply Permutation_cons_inv in Hperm |].
    intros v. specialize (Hst v). cbn [List.filter] in Hst.
    by destruct (next_run k =? v); [injection Hst|].
Qed.

Lemma sorted_jobs_sorted (l : list Job) :
  StronglySorted by_next_run (sorted_jobs l).
Proof.
  induction l as [|k l IH]; simpl; [constructor|].
  by apply insert_by_next_run_sorted.
Qed.

(** One tick at time [t] starts exactly one thread per due job (a job is
    due when its [next_run] is not after [t]) and none for the others; the
    threads started before stay in place. The order of the new threads is
    the one of [sorted()]: the earlier-due jobs first, and jobs due at one
    and the same time in the order they were registered in. These three
    conditions leave one order only. *)
Theorem tick_starts_due_jobs (lib : ScheduleLib) (t : Z) (bot : NewsBot) :
  let registered :=
    List.filter (fun j => bool_decide (next_run j <= t)) (scheduler bot) in
  ∃ due,
    threads (run_pending lib t bot) = threads bot ++ map thread_of due
    ∧ due ≡ₚ registered
    ∧ StronglySorted by_next_run due
    ∧ (∀ v, List.filter (fun j => next_run j =? v) due
            = List.filter (fun j => next_run j =? v) registered)
    ∧ (∀ due', due' ≡ₚ registered → StronglySorted by_next_run due' →
               (∀ v, List.filter (fun j => next_run j =? v) due'
                     = List.filter (fun j => next_run j =? v) registered) →
               due' = due).
Proof.
  intros registered.
  assert (Hext : List.filter (should_run t) (scheduler bot) = registered).
  { apply List.filter_ext. intros j. unfold should_run.
    destruct (Z.leb_spec (next_run j) t).
    - by rewrite bool_decide_eq_true_2.
    - rewrite bool_decide_eq_false_2; [done | lia]. }
  exists (due_jobs t (scheduler bot)). split; [apply run_pending_threads|].
  unfold due_jobs. rewrite Hext.
  split; [apply sorted_jobs_perm|].
  split; [apply sorted_jobs_sorted|].
  split; [intros v; apply sorted_jobs_stable|].
  intros due' Hperm Hsorted Hstable.
  apply stable_sort_unique; [done | apply sorted_jobs_sorted | |].
  - by rewrite Hperm, sorted_jobs_perm.
  - intros v. by rewrite Hstable, sorted_jobs_stable.
Qed.

Lemma tick_starts_due_jobs_witness :
  ∃ due,
    threads (run_pending ref_schedule 700000 three_schedules)
    = map thread_of due
    ∧ map job_company (List.filter (fun j => next_run j =? 605800) due)
      = [utf8 "A"; utf8 "B"; utf8 "C"]
    ∧ threads (run_pending ref_schedule 700000 three_schedules)
      = [daily_summary_thread (utf8 "s1") (utf8 "A");
         daily_summary_thread (utf8 "s1") (utf8 "B");
         daily_summary_thread (utf8 "s1") (utf8 "C");
         weekly_report_thread (utf8 "s1") (utf8 "A");
         weekly_report_thread (utf8 "s1") (utf8 "B");
         weekly_report_thread (utf8 "s1") (utf8 "C")].
Proof.
  destruct (tick_starts_due_jobs ref_schedule 700000 three_schedules)
    as (due & Hthreads & _ & _ & Hstable & _).
  exists due. split; [exact Hthreads|].
  split; [rewrite Hstable|]; vm_compute; reflexivity.
Defined.

Lemma run_pending_identity (lib : ScheduleLib) (t : Z) (bot : NewsBot) :
  map job_identity (scheduler (run_pending lib t bot))
  = map job_identity (scheduler bot).
Proof.
  rewrite run_pending_scheduler, map_map. apply map_ext.
  intros j. by destruct (should_run t j).
Qed.

(** Scheduler ticks never add or remove a job and never change a job's
    session, company, kind, period or time of day, whatever the times of
    the ticks: no handler of this class returns [CancelJob]. They leave
    the conversation state alone too. *)
Theorem ticks_keep_jobs (lib : ScheduleLib) (ticks : list Z) (bot : NewsBot) :
  let bot' := foldl (fun b t => run_pending lib t b) bot ticks in
  map job_identity (scheduler bot') = map job_identity (scheduler bot)
  ∧ conversation_state bot' = conversation_state bot.
Proof.
  revert bot. induction ticks as [|t ticks IH]; intros bot; simpl; [done|].
  destruct (IH (run_pending lib t bot)) as [Hj Hs].
  by rewrite Hj, Hs, run_pending_identity, run_pending_sessions.
Qed.

(** A tick before any job is due changes nothing at all. *)
Theorem tick_before_due_is_noop (lib : ScheduleLib) (t : Z) (bot : NewsBot) :
  (∀ j, j ∈ scheduler bot → t < next_run j) →
  run_pending lib t bot = bot.
Proof.
  intros Hearly.
  assert (Hnone : ∀ j, j ∈ scheduler bot → should_run t j = false).
  { intros j Hj. apply Z.leb_gt. by apply Hearly. }
  unfold run_pending, due_jobs. rewrite (filter_none _ _ Hnone). simpl.
  destruct bot as [jobs cs th co]. unfold set_scheduler. simpl in *.
  f_equal. induction jobs as [|j jobs IH]; simpl; [done|].
  rewrite Hnone by set_solver. f_equal. apply IH.
  - intros k Hk. apply Hearly. set_solver.
  - intros k Hk. apply Hnone. set_solver.
Qed.

Lemma tick_before_due_is_noop_witness :
  run_pending ref_schedule 2000 one_schedule = one_schedule
  ∧ map next_run (scheduler one_schedule) = [32400; 605800].
Proof.
  split; [|vm_compute; reflexivity].
  apply tick_before_due_is_noop. intros j Hj.
  assert (Hjobs : map next_run (scheduler one_schedule) = [32400; 605800])
    by (vm_compute; reflexivity).
  apply list_elem_of_In, (in_map next_run) in Hj. rewrite Hjobs in Hj.
  destruct Hj as [<- | [<- | []]]; lia.
Defined.

(** *** Choosing by number *)

Lemma choose_spec (l : list Schedule) (n : Z) :
  (1 <= n <= Z.of_nat (length l) →
     ∃ s, l !! Z.to_nat (n - 1) = Some s ∧ choose l (n - 1) = Some s)
  ∧ (n < 1 ∨ Z.of_nat (length l) < n → choose l (n - 1) = None).
Proof.
  split.
  - intros Hn. destruct (lookup_lt_is_Some_2 l (Z.to_nat (n - 1))) as [s Hs];
      [lia|].
    exists s. split; [done|].
    rewrite <- (choose_in_range l _ s Hs). f_equal. lia.
  - intros Hn. apply choose_out_of_range. lia.
Qed.

(** In the [awaiting_cancellation_choice] step the number typed is a
    1-based position in the session's schedule list as it is now: a number
    from 1 to the length selects the schedule at that position (the turn
    changes only the pending task of this session, whose
    [company_to_cancel] now holds that schedule's company and whose step is
    [awaiting_cancellation_confirmation], and the reply asks to confirm
    that company), and every other number (zero, negative numbers, numbers
    past the end) gets the invalid-number reply and changes nothing.
    Negative numbers never count from the end. *)
Theorem cancellation_choice_by_position (py : Builtins) (lib : ScheduleLib)
    (env : Collaborators) (bot : NewsBot) (session_id : pystr)
    (session_state : SessionState) (task : Task) (user_input : pystr) (n : Z) :
  conversation_state bot !! session_id = Some session_state →
  current_task session_state = Some task →
  step task = awaiting_cancellation_choice →
  int_of_str py user_input = Some n →
  let r := handle_message py lib env bot session_id user_input in
  let l := schedules session_state in
  (1 <= n <= Z.of_nat (length l) →
     ∃ s, l !! Z.to_nat (n - 1) = Some s
          ∧ r = ({| scheduler := scheduler bot;
                    conversation_state :=
                      <[session_id :=
                          {| schedules := l;
                             current_task :=
                               Some {| step := awaiting_cancellation_confirmation;
                                       task_company_name := task_company_name task;
                                       task_schedule_time := task_schedule_time task;
                                       company_to_cancel := Some (company_name s) |} |}]>
                        (conversation_state bot);
                    threads := threads bot;
                    console := console bot |},
                 Ok (utf8 "알겠습니다. '" ++ company_name s
                     ++ utf8 "' 뉴스의 정기 알림을 취소하시겠습니까? ('네' 또는 '아니오')")))
  ∧ (n < 1 ∨ Z.of_nat (length l) < n → r = (bot, Ok INVALID_NUMBER)).
Proof.
  intros Hs Ht Hstep Hint r l. unfold r, handle_message.
  rewrite (get_existing_session _ _ _ Hs), Ht, Hstep, Hint. fold l.
  destruct (choose_spec l n) as [Hin Hout]. split.
  - intros Hn. destruct (Hin Hn) as (s & Hl & ->). by exists s.
  - intros Hn. by rewrite (Hout Hn).
Qed.

Lemma cancellation_choice_by_position_witness :
  let turn := handle_message ascii_builtins ref_schedule news_env choosing
                (utf8 "s1") in
  let chosen : option SessionState :=
    conversation_state (turn (utf8 "3")).1 !! utf8 "s1" in
  (turn (utf8 "3")).2
  = Ok (utf8 "알겠습니다. 'C' 뉴스의 정기 알림을 취소하시겠습니까? ('네' 또는 '아니오')")
  ∧ (company_to_cancel <$> (chosen ≫= current_task)) = Some (Some (utf8 "C"))
  ∧ (step <$> (chosen ≫= current_task))
    = Some awaiting_cancellation_confirmation
  ∧ turn (utf8 "-1") = (choosing, Ok INVALID_NUMBER).
Proof.
  intros turn.
  pose (ss := {| schedules :=
                   [ {| company_name := utf8 "A"; schedule_time := utf8 "09:00" |};
                     {| company_name := utf8 "B"; schedule_time := utf8 "10:00" |};
                     {| company_name := utf8 "C"; schedule_time := utf8 "11:00" |} ];
                 current_task := Some (new_task awaiting_cancellation_choice) |}).
  assert (Hs : conversation_state choosing !! utf8 "s1" = Some ss)
    by (vm_compute; reflexivity).
  destruct (cancellation_choice_by_position ascii_builtins ref_schedule
              news_env choosing (utf8 "s1") ss _ (utf8 "3") 3
              Hs eq_refl eq_refl eq_refl) as [H3 _].
  destruct (cancellation_choice_by_position ascii_builtins ref_schedule
              news_env choosing (utf8 "s1") ss _ (utf8 "-1") (-1)
              Hs eq_refl eq_refl eq_refl) as [_ Hneg].
  destruct (H3 ltac:(simpl; lia)) as (s & Hl & Hr).
  injection Hl as <-. intros chosen. unfold chosen, turn.
  rewrite Hr, (Hneg ltac:(left; lia)).
  repeat apply conj; vm_compute; reflexivity.
Defined.



(** *** The report threads *)

(** The daily thread always prints its header first. When the summarizer
    finds nothing to summarize (no article today, or an article whose
    content is empty after the fallback) it prints the fixed
    no-new-news line, never the summarizer's own message, and then the
    user prompt. When a collaborator raises, the header is all that was
    printed and the error ends the thread. *)
Theorem daily_thread_output (env : Collaborators) (session_id company : pystr) :
  let r := _generate_and_print_daily_summary env session_id company in
  (search_news env company (today_str env) = Ok []
   ∨ (∃ latest rest,
        search_news env company (today_str env) = Ok (latest :: rest)
        ∧ content_or_fetch env latest (default [] (a_link latest)) = Ok []) →
   r = (((DAILY_HEADER company ++ NL) ++ NO_NEW_NEWS ++ NL) ++ USER_PROMPT,
        Ok tt))
  ∧ (∀ e, collaborator_raises env company e →
       r = (DAILY_HEADER company ++ NL, Raise e)).
Proof.
  intros r. unfold r, _generate_and_print_daily_summary. split.
  - intros [Hnone | (latest & rest & Hs & Hc)].
    + by rewrite (summarizer_not_found _ _ Hnone).
    + by rewrite (summarizer_content_unavailable _ _ _ _ Hs Hc).
  - intros e He. apply summarizer_raises_iff in He. by rewrite He.
Qed.

Lemma report_entries_untitled (news_list : list Article) :
  (∃ a, a ∈ news_list ∧ a_title a = None) →
  report_entries news_list = Raise (KeyError (utf8 "title")).
Proof.
  intros (a & Hin & Ha).
  induction news_list as [|b rest IH]; [by apply elem_of_nil in Hin|].
  simpl. unfold report_entry at 1.
  destruct (a_title b) as [title|] eqn:Hb; [|done]. simpl.
  apply elem_of_cons in Hin as [-> | Hin]; [congruence|].
  by rewrite (IH Hin).
Qed.

(** The weekly thread needs a title on every article of the week: if one
    of them has none, the thread ends with [KeyError] on ["title"] after
    the header, before the language model is asked and whatever the other
    articles and the model are. (The daily summary puts a default title in
    its place.) *)
Theorem weekly_thread_needs_titles (env : Collaborators) (src : WeeklySource)
    (session_id company : pystr) (news_list : list Article) :
  search_news_between src company (start_date src) (today_str env)
  = Ok news_list →
  (∃ a, a ∈ news_list ∧ a_title a = None) →
  _generate_and_print_weekly_report env src session_id company
  = (WEEKLY_HEADER company ++ NL, Raise (KeyError (utf8 "title"))).
Proof.
  intros Hs Hno. unfold _generate_and_print_weekly_report. rewrite Hs.
  rewrite (report_entries_untitled _ Hno).
  destruct news_list as [|a rest]; [|done].
  destruct Hno as (a & Hin & _). by apply elem_of_nil in Hin.
Qed.

Lemma weekly_thread_needs_titles_witness :
  _generate_and_print_weekly_report news_env untitled_week (utf8 "s1")
    (utf8 "Acme")
  = (WEEKLY_HEADER (utf8 "Acme") ++ NL, Raise (KeyError (utf8 "title"))).
Proof.
  eapply (weekly_thread_needs_titles news_env untitled_week).
  - reflexivity.
  - exists {| a_title := None; a_link := None;
              a_content := Some (utf8 "text") |}.
    split; [|reflexivity]. apply elem_of_cons. right.
    apply elem_of_cons. by left.
Defined.

Lemma report_entries_same_excerpt (news news' : list Article) :
  Forall2 same_excerpt news news' →
  report_entries news = report_entries news'.
Proof.
  induction 1 as [|a b l l' [Ht Hc] _ IH]; [done|].
  simpl. unfold report_entry. rewrite Ht, Hc, IH. done.
Qed.

(** The weekly report reads at most the first 200 characters of each
    article's content: two weeks whose articles agree on titles and on
    those 200 characters give the same output and the same outcome, the
    rest of the content (and the links) never reach the prompt. *)
Theorem weekly_thread_reads_200 (env : Collaborators) (src src' : WeeklySource)
    (session_id company : pystr) (news news' : list Article) :
  search_news_between src company (start_date src) (today_str env) = Ok news →
  search_news_between src' company (start_date src') (today_str env)
  = Ok news' →
  weekly_report_prompt src = weekly_report_prompt src' →
  Forall2 same_excerpt news news' →
  _generate_and_print_weekly_report env src session_id company
  = _generate_and_print_weekly_report env src' session_id company.
Proof.
  intros Hs Hs' Hp Hsame. unfold _generate_and_print_weekly_report.
  rewrite Hs, Hs', Hp, (report_entries_same_excerpt _ _ Hsame).
  by destruct Hsame.
Qed.

Lemma weekly_thread_reads_200_witness :
  _generate_and_print_weekly_report news_env (week_of_length 200) (utf8 "s1")
    (utf8 "Acme")
  = _generate_and_print_weekly_report news_env (week_of_length 5000)
      (utf8 "s1") (utf8 "Acme").
Proof.
  eapply (weekly_thread_reads_200 news_env (week_of_length 200)
            (week_of_length 5000)).
  - reflexivity.
  - reflexivity.
  - reflexivity.
  - constructor; [|constructor]. split; [reflexivity|].
    vm_compute. reflexivity.
Defined.


(** *** The single-schedule variant *)




Lemma filter_ext_elem {A} (f g : A → bool) (l : list A) :
  (∀ x, x ∈ l → f x = g x) → List.filter f l = List.filter g l.
Proof.
  intros H. apply List.filter_ext_in. intros x Hx. apply H.
  by apply list_elem_of_In.
Qed.

Section IncomingTicks.
Context (lib : ScheduleLib) (svc : Incoming.Services) (t : Z).





End IncomingTicks.



(** In the single-schedule variant a confirmed cancellation clears the
    scheduler by the session id: the session's state is deleted, the
    other sessions' states are untouched, and the jobs left are those
    that do not carry the session id as a tag. Unless the session id is
    the text of a kind tag (["daily"], ["weekly"]), these are exactly the
    jobs of the other sessions. *)
Theorem incoming_cancel_by_session (py : Builtins) (lib : ScheduleLib)
    (svc : Incoming.Services) (bot : Incoming.NewsBot)
    (session_id : pystr) (state : Incoming.State) (user_input : pystr) :
  Incoming.conversation_state bot !! session_id = Some state →
  Incoming.step state = Incoming.awaiting_cancellation_confirmation →
  list_in (str_lower py user_input) affirmatives = true →
  let r := Incoming.handle_message py lib svc bot session_id user_input in
  Incoming.conversation_state r.1 !! session_id = None
  ∧ (∀ s, s ≠ session_id →
       Incoming.conversation_state r.1 !! s
       = Incoming.conversation_state bot !! s)
  ∧ Incoming.scheduler r.1 = Incoming.clear session_id (Incoming.scheduler bot)
  ∧ (session_id ≠ utf8 "daily" → session_id ≠ utf8 "weekly" →
     Incoming.scheduler r.1
     = List.filter
         (fun j => negb (bool_decide (Incoming.job_session j = session_id)))
         (Incoming.scheduler bot)).
Proof.
  intros Hs Hstep Haff r. unfold r, Incoming.handle_message.
  rewrite Hs, Hstep, Haff. cbn.
  split; [apply lookup_delete_eq|].
  split; [intros s Hne; by apply lookup_delete_ne|].
  split; [done|].
  intros Hd Hw. unfold Incoming.clear. apply filter_ext_elem. intros j _.
  f_equal. apply bool_decide_ext. unfold Incoming.job_tags.
  rewrite elem_of_cons, list_elem_of_singleton. split.
  - intros [-> | Hk]; [done|]. destruct (Incoming.job_kind j); simpl in Hk;
      congruence.
  - intros ->. by left.
Qed.

Lemma incoming_cancel_by_session_witness :
  let r := incoming_turn incoming_confirming (utf8 "s1") (utf8 "네") in
  length (Incoming.scheduler incoming_confirming) = 2%nat
  ∧ Incoming.scheduler r.1 = []
  ∧ Incoming.conversation_state r.1 !! utf8 "s1" = None.
Proof.
  intros r.
  destruct (incoming_cancel_by_session ascii_builtins ref_schedule
              incoming_services incoming_confirming (utf8 "s1")
              {| Incoming.step := Incoming.awaiting_cancellation_confirmation;
                 Incoming.company_name := Some (Some (utf8 "Acme"));
                 Incoming.schedule_time := Some (utf8 "09:00") |}
              (utf8 "네"))
    as (Hstate & _ & Hjobs & _).
  - vm_compute. reflexivity.
  - reflexivity.
  - vm_compute. reflexivity.
  - unfold r, incoming_turn. rewrite Hstate, Hjobs.
    repeat apply conj; vm_compute; reflexivity.
Defined.

(** In the single-schedule variant, [start_cancellation] for a session
    whose state is gone while jobs of it are still registered stores a
    state without a company name and asks for confirmation. Until the
    user answers, a tick that runs one of the session's jobs raises
    [KeyError] on ["company_name"]: the exception leaves [run_pending],
    and the jobs that were due after it are not run. *)
Theorem incoming_fallback_breaks_jobs (lib : ScheduleLib)
    (svc : Incoming.Services) (bot : Incoming.NewsBot) (session_id : pystr)
    (j : Incoming.Job) :
  Incoming.conversation_state bot !! session_id = None →
  j ∈ Incoming.scheduler bot →
  Incoming.job_session j = session_id →
  let r := Incoming.start_cancellation bot session_id in
  r.2 = Ok Incoming.CONFIRM_ANY
  ∧ ∀ t rest,
      Incoming.run_jobs lib svc t (j :: rest) r.1
      = (r.1, Raise (KeyError (utf8 "company_name"))).
Proof.
  intros Hs Hj Hsession r.
  assert (Hr : r = (Incoming.put_state session_id
                      {| Incoming.step :=
                           Incoming.awaiting_cancellation_confirmation;
                         Incoming.company_name := None;
                         Incoming.schedule_time := None |}
                      bot,
                    Ok Incoming.CONFIRM_ANY)).
  { unfold r, Incoming.start_cancellation. rewrite Hs.
    destruct (List.filter _ (Incoming.scheduler bot)) as [|k l] eqn:E; [|done].
    exfalso. apply list_elem_of_In in Hj.
    assert (Hin : In j []); [|done]. rewrite <- E. apply filter_In.
    split; [done|]. apply bool_decide_eq_true_2.
    unfold Incoming.job_tags. rewrite Hsession. set_solver. }
  rewrite Hr. split; [done|]. intros t rest. cbn [fst].
  cbn [Incoming.run_jobs]. unfold Incoming._run_job, Incoming.job_func,
    Incoming._send_daily_summary, Incoming._send_weekly_report.
  rewrite Hsession. cbn. rewrite lookup_insert_eq.
  by destruct (Incoming.job_kind j).
Qed.

Lemma incoming_fallback_breaks_jobs_witness :
  (Incoming.start_cancellation incoming_dropped (utf8 "s1")).2
  = Ok Incoming.CONFIRM_ANY
  ∧ (Incoming.run_pending ref_schedule incoming_services 700000
       (Incoming.start_cancellation incoming_dropped (utf8 "s1")).1).2
    = Raise (KeyError (utf8 "company_name")).
Proof.
  destruct (incoming_fallback_breaks_jobs ref_schedule incoming_services
              incoming_dropped (utf8 "s1")
              (Incoming.daily_job ref_schedule incoming_services 0
                 (utf8 "s1") (utf8 "09:00")))
    as [Hreply Hrun].
  - vm_compute. reflexivity.
  - apply list_elem_of_In. vm_compute. left. reflexivity.
  - reflexivity.
  - split; [exact Hreply|].
    unfold Incoming.run_pending.
    replace (Incoming.sorted_jobs _)
      with [Incoming.daily_job ref_schedule incoming_services 0
              (utf8 "s1") (utf8 "09:00");
            Incoming.weekly_job ref_schedule incoming_services 1 (utf8 "s1")]
      by (vm_compute; reflexivity).
    by rewrite Hrun.
Defined.

(** The two variants' summarizers agree whenever the news search returns
    an article that has a title, a link and non-empty content (its own or
    fetched): same text, same flag, same error. They can differ only when
    the search is empty (the variant asks the crawler), a key is missing
    (the variant raises [KeyError]) or the content is empty (the variant
    still asks the model). *)
Theorem summarizers_agree (svc : Incoming.Services) (company : pystr)
    (latest : Article) (rest : list Article) :
  Incoming.search_news_for svc (Some company) (today_str (Incoming.base svc))
  = Ok (latest :: rest) →
  search_news (Incoming.base svc) company (today_str (Incoming.base svc))
  = Ok (latest :: rest) →
  is_Some (a_title latest) →
  is_Some (a_link latest) →
  content_or_fetch (Incoming.base svc) latest (default [] (a_link latest))
  ≠ Ok [] →
  Incoming._fetch_and_summarize_latest_news svc (Some company)
  = _fetch_and_summarize_latest_news (Incoming.base svc) company.
Proof.
  intros Hs Hs' [title Ht] [url Hu] Hc.
  unfold Incoming._fetch_and_summarize_latest_news,
    _fetch_and_summarize_latest_news.
  rewrite Hs, Hs'. cbn [rbind]. rewrite Ht, Hu in *. cbn [default id] in *.
  destruct (content_or_fetch (Incoming.base svc) latest url)
    as [[|c content]|e]; [by destruct Hc | reflexivity | reflexivity].
Qed.

Lemma summarizers_agree_witness :
  Incoming._fetch_and_summarize_latest_news incoming_services
    (Some (utf8 "Acme"))
  = _fetch_and_summarize_latest_news news_env (utf8 "Acme").
Proof.
  apply (summarizers_agree incoming_services (utf8 "Acme")
           (article_about (utf8 "Acme")) []).
  - reflexivity.
  - reflexivity.
  - by eexists.
  - by eexists.
  - discriminate.
Defined.

(** *** Registering and cancelling *)
Lemma turn_others (py : Builtins) (lib : ScheduleLib) (env : Collaborators)
    (bot : NewsBot) (session_id user_input s : pystr) :
  s ≠ session_id →
  conversation_state (handle_message py lib env bot session_id user_input).1 !! s
  = conversation_state bot !! s.
Proof.
  intros Hne.
  destruct (turn_effect py lib env bot session_id user_input) as (H & _ & _).
  by apply H.
Qed.

Lemma clear_own_jobs (lib : ScheduleLib) (env : Collaborators)
    (s c t : pystr) :
  clear (Some c) [daily_job lib env s c t; weekly_job lib env s c] = [].
Proof.
  assert (Hd : c ∈ job_tags (daily_job lib env s c t)).
  { apply elem_of_cons. right. apply elem_of_cons. by left. }
  assert (Hw : c ∈ job_tags (weekly_job lib env s c)).
  { apply elem_of_cons. right. apply elem_of_cons. by left. }
  unfold clear. cbn [List.filter].
  by rewrite (bool_decide_eq_true_2 _ Hd), (bool_decide_eq_true_2 _ Hw).
Qed.

(** A session that goes through the scheduling dialogue and then through
    the cancellation dialogue is back where a first message would have
    left it: after the time is accepted the session holds the one
    Schedule and the scheduler the two new jobs; after the confirmed
    cancellation the session has no schedule and no pending task, and,
    if no job registered before carries the company as a tag, the
    scheduler holds exactly the jobs it held before. *)
Theorem register_cancel_round_trip (py : Builtins) (lib : ScheduleLib)
    (env : Collaborators) (bot : NewsBot)
    (session_id name_input time_input answer : pystr)
    (summary time : pystr) :
  let company := str_strip py name_input in
  conversation_state bot !! session_id = None →
  _fetch_and_summarize_latest_news env company = Ok (summary, true) →
  existsb (fun keyword => str_in keyword time_input) cancel_keywords = false →
  parse_schedule_time py time_input = Some time →
  at_accepts lib time = true →
  list_in (str_lower py answer) affirmatives = true →
  (∀ j, j ∈ scheduler bot → company ∉ job_tags j) →
  let turn b text := handle_message py lib env b session_id text in
  let b1 := (start_conversation bot session_id).1 in
  let b2 := (turn b1 name_input).1 in
  let b3 := (turn b2 time_input).1 in
  let b4 := (start_cancellation b3 session_id).1 in
  let b5 := (turn b4 answer).1 in
  conversation_state b3 !! session_id
  = Some {| schedules :=
              [{| company_name := company; schedule_time := time |}];
            current_task := None |}
  ∧ scheduler b3
    = scheduler bot
      ++ [daily_job lib env session_id company time;
          weekly_job lib env session_id company]
  ∧ (turn b4 answer).2 = Ok (CANCELLED (Some company))
  ∧ scheduler b5 = scheduler bot
  ∧ conversation_state b5
    = <[session_id := fresh_session]> (conversation_state bot).
Proof.
  intros company Hfresh Hfetch Hkw Hparse Hat Haff Hnone turn b1 b2 b3 b4 b5.
  (* start_conversation *)
  assert (H1 : conversation_state b1 !! session_id
               = Some {| schedules := [];
                         current_task := Some (new_task awaiting_company_name) |}
               ∧ scheduler b1 = scheduler bot
               ∧ ∀ s, s ≠ session_id →
                   conversation_state b1 !! s = conversation_state bot !! s).
  { unfold b1, start_conversation. rewrite (get_missing_session _ _ Hfresh).
    cbn. rewrite lookup_insert_eq. repeat split.
    intros s Hne. by rewrite !lookup_insert_ne. }
  destruct H1 as (Hs1 & Hj1 & Ho1).
  (* the company name *)
  assert (H2 : conversation_state b2 !! session_id
               = Some {| schedules := [];
                         current_task :=
                           Some (set_step awaiting_schedule_time
                                   (set_task_company_name company
                                      (new_task awaiting_company_name))) |}
               ∧ scheduler b2 = scheduler bot).
  { unfold b2, turn, handle_message.
    rewrite (get_existing_session _ _ _ Hs1). cbn [current_task step new_task].
    fold company. rewrite Hfetch. cbn. rewrite lookup_insert_eq. by rewrite Hj1. }
  destruct H2 as (Hs2 & Hj2).
  (* the time *)
  assert (H3 : conversation_state b3 !! session_id
               = Some {| schedules :=
                           [{| company_name := company; schedule_time := time |}];
                         current_task := None |}
               ∧ scheduler b3
                 = scheduler bot
                   ++ [daily_job lib env session_id company time;
                       weekly_job lib env session_id company]).
  { unfold b3, turn, handle_message.
    rewrite (get_existing_session _ _ _ Hs2).
    cbn [current_task step set_step]. rewrite Hkw, Hparse.
    cbn [task_company_name set_task_schedule_time set_step
         set_task_company_name].
    unfold _schedule_jobs. rewrite Hat. cbn. rewrite lookup_insert_eq.
    by rewrite Hj2. }
  destruct H3 as (Hs3 & Hj3).
  (* start_cancellation *)
  assert (H4 : conversation_state b4 !! session_id
               = Some {| schedules :=
                           [{| company_name := company; schedule_time := time |}];
                         current_task :=
                           Some (set_company_to_cancel company
                                   (new_task awaiting_cancellation_confirmation)) |}
               ∧ scheduler b4 = scheduler b3
               ∧ ∀ s, s ≠ session_id →
                   conversation_state b4 !! s = conversation_state b3 !! s).
  { unfold b4, start_cancellation. rewrite (get_existing_session _ _ _ Hs3).
    cbn. rewrite lookup_insert_eq. repeat split.
    intros s Hne. by rewrite lookup_insert_ne. }
  destruct H4 as (Hs4 & Hj4 & Ho4).
  (* the answer *)
  pose proof (confirm_cancellation py lib env b4 session_id _ _ answer
                Hs4 eq_refl eq_refl Haff) as H5.
  cbn [company_to_cancel set_company_to_cancel schedules] in H5.
  split; [exact Hs3|]. split; [exact Hj3|].
  (split; [unfold turn; by rewrite H5|]).
  assert (Hfinal : scheduler b5 = scheduler bot).
  { unfold b5, turn. rewrite H5. cbn [fst scheduler put_session set_scheduler].
    rewrite Hj4, Hj3.
    assert (Happ : ∀ l1 l2, clear (Some company) (l1 ++ l2)
                            = clear (Some company) l1 ++ clear (Some company) l2)
      by (intros l1 l2; apply List.filter_app).
    by rewrite Happ, (clear_no_such_tag _ _ Hnone), clear_own_jobs, app_nil_r. }
  split; [exact Hfinal|].
  apply map_eq. intros s. destruct (decide (s = session_id)) as [-> | Hne].
  - unfold b5, turn. rewrite H5. cbn. rewrite !lookup_insert_eq.
    rewrite bool_decide_eq_true_2 by done. done.
  - rewrite lookup_insert_ne by done. unfold b5, turn.
    rewrite (turn_others _ _ _ _ _ _ _ Hne), (Ho4 _ Hne). unfold b3, turn.
    rewrite (turn_others _ _ _ _ _ _ _ Hne). unfold b2, turn.
    rewrite (turn_others _ _ _ _ _ _ _ Hne). by apply Ho1.
Qed.

Lemma register_cancel_round_trip_witness :
  let turn b text :=
    handle_message ascii_builtins ref_schedule news_env b (utf8 "s1") text in
  let b1 := (start_conversation NewsBot_init (utf8 "s1")).1 in
  let b3 := (turn (turn b1 (utf8 " Acme ")).1 (utf8 "09:00")).1 in
  let b5 := (turn (start_cancellation b3 (utf8 "s1")).1 (utf8 "네")).1 in
  length (scheduler b3) = 2%nat
  ∧ scheduler b5 = []
  ∧ conversation_state b5 = {[ utf8 "s1" := fresh_session ]}.
Proof.
  intros turn b1 b3 b5.
  destruct (register_cancel_round_trip ascii_builtins ref_schedule news_env
              NewsBot_init (utf8 "s1") (utf8 " Acme ") (utf8 "09:00")
              (utf8 "네") (utf8 "summary" ++ NL ++ utf8 "출처: http://n/1")
              (utf8 "09:00"))
    as (_ & Hj3 & _ & Hj5 & Hs5).
  - reflexivity.
  - vm_compute. reflexivity.
  - vm_compute. reflexivity.
  - vm_compute. reflexivity.
  - vm_compute. reflexivity.
  - vm_compute. reflexivity.
  - intros j Hj. by apply elem_of_nil in Hj.
  - unfold b5, b3, b1, turn. rewrite Hj5, Hs5, Hj3.
    repeat apply conj; reflexivity.
Defined.
